(** * PDF form utilities of bubble-core/scripts: a shallow embedding

    The scripts under [packages/bubble-core/scripts] are thin pipelines around
    the PyMuPDF engine.  This development embeds

    - [discover_pdf_fields.py]   (reading-order sort, checkbox choices, ids),
    - [get_checkbox_values.py]   (checkbox export values),
    - [pdf_to_markdown_images.py] (page-to-image conversion and its argument
      loop),
    - [fill_form_fields_fitz_v2.py] (form filling and its entry point),

    and proves or refutes the properties the specification states for them.

    The engine is an external collaborator.  Its answers (does the document
    open, which widgets has a page, what does an accessor return, does it
    raise) are data of the model: a document is a list of pages, a widget is a
    record of what each accessor yields.  Coordinates are Python floats; they
    are modelled as exact rationals [Q].  Every concrete input used below has
    integer-valued coordinates, on which binary floating point computes the
    same quotients, roundings and products as [Q] does. *)

From Stdlib Require Import List String Ascii Bool ZArith QArith Qround.
From Stdlib Require Import DecimalString.
From Stdlib Require Import Lia Lqa Permutation Sorted OrderedTypeEx.
Import ListNotations.

Set Implicit Arguments.

(** ** Python values and primitives *)

Module Py.

(** The outcome of evaluating an expression that may raise. *)
Inductive Probe (A : Type) : Type :=
| Raises : Probe A
| Returns : A -> Probe A.
Arguments Raises {A}.
Arguments Returns {A} _.

Definition bind {A B : Type} (p : Probe A) (k : A -> Probe B) : Probe B :=
  match p with
  | Raises => Raises
  | Returns a => k a
  end.

(** [try: p  except: h] *)
Definition try_except {A : Type} (p : Probe A) (h : A) : A :=
  match p with
  | Raises => h
  | Returns a => a
  end.

(** A value stored under a key of the mapping that [button_states()]
    returns: a list of state names, or something that is not a list
    (the engine stores [None] when it found no states). *)
Inductive dictval : Type :=
| DList : list string -> dictval
| DOther : dictval.

(** The values the variable [choices] can hold: [None], a list of strings,
    or a mapping from keys to [dictval]s (in insertion order). *)
Inductive pyval : Type :=
| PyNone : pyval
| PyList : list string -> pyval
| PyDict : list (string * dictval) -> pyval.

(** Python truthiness of such a value. *)
Definition truthy (v : pyval) : bool :=
  match v with
  | PyNone => false
  | PyList [] => false
  | PyList (_ :: _) => true
  | PyDict [] => false
  | PyDict (_ :: _) => true
  end.

(** Truthiness of an optional string ([None] and [""] are falsy). *)
Definition truthy_str (s : option string) : bool :=
  match s with
  | None => false
  | Some s => negb (s =? "")%string
  end.

(** [v if v else d] on optional strings. *)
Definition str_or (s : option string) (d : string) : string :=
  match s with
  | None => d
  | Some s => if (s =? "")%string then d else s
  end.

(** [round(q)]: nearest integer, ties to the even one. *)
Definition py_round (q : Q) : Z :=
  let f := Qfloor q in
  match (q - inject_Z f ?= 1 # 2)%Q with
  | Lt => f
  | Gt => (f + 1)%Z
  | Eq => if Z.even f then f else (f + 1)%Z
  end.

(** [<] on floats, booleans and strings. *)
Definition Qltb (a b : Q) : bool := negb (Qle_bool b a).

Definition bool_ltb (a b : bool) : bool := negb a && b.

(** [<] on 2-tuples: the first components decide unless they are equal. *)
Definition tuple_lt {A B : Type} (eqA ltA : A -> A -> bool)
    (ltB : B -> B -> bool) (p q : A * B) : bool :=
  if eqA (fst p) (fst q) then ltB (snd p) (snd q) else ltA (fst p) (fst q).

Section Sorted.
Variables (A K : Type) (key : A -> K) (lt : K -> K -> bool).

(** [a] was earlier in the input than every element of [l]: it goes
    before the first element whose key is not strictly smaller. *)
Fixpoint insert (a : A) (l : list A) : list A :=
  match l with
  | [] => [a]
  | b :: l' => if lt (key b) (key a) then b :: insert a l' else a :: b :: l'
  end.

(** [sorted(l, key=key)].  Python guarantees that [sorted] is stable and
    compares keys with [<] only; on a key order that is a strict weak
    order the result of a stable sort is unique, so it is the result of
    this stable insertion sort. *)
Definition sorted (l : list A) : list A := fold_right insert [] l.

(** Two elements that [<] does not separate. *)
Definition same_key (k1 k2 : K) : bool := negb (lt k1 k2) && negb (lt k2 k1).

(** [a] may stand before [b]. *)
Definition key_le (a b : A) : Prop := lt (key b) (key a) = false.
End Sorted.

(** The order a key comparison must be for sorting to make sense: a
    strict weak order. *)
Record StrictWeak (K : Type) (lt : K -> K -> bool) : Prop := {
  sw_irrefl : forall a, lt a a = false;
  sw_trans : forall a b c, lt a b = true -> lt b c = true -> lt a c = true;
  sw_negtrans :
    forall a b c, lt a b = false -> lt b c = false -> lt a c = false
}.

(** [list(set(l))]: the distinct elements of [l].  Python leaves their order
    unspecified; the only mapping the script flattens is a checkbox's, whose
    values are sorted afterwards, and the sorted list does not depend on
    that order (lemma [choices_order_irrelevant]). *)
Definition list_set (l : list string) : list string := nodup string_dec l.

(** [enumerate(l, start)] *)
Fixpoint enumerate {A : Type} (l : list A) (start : nat) : list (nat * A) :=
  match l with
  | [] => []
  | a :: l' => (start, a) :: enumerate l' (S start)
  end.

End Py.

Import Py.

Declare Scope probe_scope.
Notation "x <- p ;; k" := (Py.bind p (fun x => k))
  (at level 61, p at next level, right associativity) : probe_scope.

(** ** The engine's object model, as the scripts see it *)

Module Engine.

Record Rect : Type := { x0 : Q; y0 : Q; x1 : Q; y1 : Q }.

(** The object stored under ["/N"] of an appearance dictionary: either it
    has a [keys()] method (its state names), or it is a plain object. *)
Inductive NormalAp : Type :=
| WithKeys : list string -> NormalAp
| NoKeys : NormalAp.

(** An appearance dictionary; [ap_N = None] when ["/N"] is not in it. *)
Record ApDict : Type := { ap_N : option NormalAp }.

(** What [annot.get("/AP")] does: raise, or return a falsy value ([None])
    or an appearance dictionary. *)
Record Annot : Type := { annot_get_AP : Probe (option ApDict) }.

(** What [widget._get_widget()] returns when it does not raise; [wo_AP =
    None] when ["/AP"] is not in it. *)
Record WidgetObj : Type := { wo_AP : option ApDict }.

Record Widget : Type := {
  field_name : option string;
  field_type_string : string;
  field_value : option string;
  rect : Rect;
  (** [None]: the attribute does not exist ([hasattr] is false). *)
  field_flags : option Z;
  (** [None]: no such method; otherwise what the call does. *)
  button_states : option (Probe pyval);
  (** Outer [None]: no such attribute; inner [None]: a falsy value. *)
  _annot : option (option Annot);
  (** The call raises, or returns a falsy value or a widget object. *)
  _get_widget : Probe (option WidgetObj);
  (** Whether [update()] raises once [field_value] has been assigned. *)
  update_raises : bool
}.

Record Pixmap : Type := {
  pix_width : Z;
  pix_height : Z;
  jpeg : list Byte.byte
}.

Record Page : Type := {
  page_height : Q;
  widgets : list Widget;
  (** [get_pixmap] followed by [tobytes("jpeg")]. *)
  get_pixmap : Probe Pixmap
}.

Definition Document : Type := list Page.

(** [pdf_document[i]]: any integer below the page count is accepted and
    negative ones count from the end. *)
Definition getitem (doc : Document) (i : Z) : Probe Page :=
  let n := Z.of_nat (List.length doc) in
  if (n <=? i)%Z then Raises
  else if (n =? 0)%Z then Raises
  else match nth_error doc (Z.to_nat (i mod n)) with
       | Some p => Returns p
       | None => Raises
       end.

End Engine.

Import Engine.

(** ** discover_pdf_fields.py *)

Module Discover.

Local Open Scope probe_scope.

(** The dictionary [field_data] built for one widget (the constant entries
    ["label"] and ["potential_labels"] are left out). *)
Record field_data : Type := {
  f_page : nat;
  f_name : string;
  f_type : string;
  f_field_type : string;
  f_current_value : string;
  f_choices : pyval;
  f_rect : list Q;
  f_x : Q;
  f_y : Q;
  f_width : Q;
  f_height : Q;
  f_field_flags : Z
}.

(** A field after [field["id"] = i]. *)
Record FormField : Type := { id : nat; data : field_data }.

Definition ROW_TOLERANCE : Z := 10.

(** [round(y / ROW_TOLERANCE) * ROW_TOLERANCE] *)
Definition snapped_row (y : Q) : Z :=
  (py_round (y / inject_Z ROW_TOLERANCE) * ROW_TOLERANCE)%Z.

(** [(row * -y, x)] *)
Definition get_sort_key (field : field_data) : Q * Q :=
  let y := f_y field in
  let x := f_x field in
  let row := snapped_row y in
  ((inject_Z row * - y)%Q, x).

(** [<] on the tuples [get_sort_key] returns. *)
Definition key_lt : Q * Q -> Q * Q -> bool := tuple_lt Qeq_bool Qltb Qltb.

Definition sort_fields_reading_order (fields : list field_data)
    : list field_data :=
  sorted get_sort_key key_lt fields.

Definition pdf_type_of (field_type : string) : string :=
  if (field_type =? "CheckBox")%string then "/Btn"%string
  else if (field_type =? "Signature")%string then "/Sig"%string
  else "/Tx"%string.

(** Strategy 1: [widget.button_states()] if the method exists. *)
Definition try_button_states (w : Widget) : Probe pyval :=
  match button_states w with
  | Some call => call
  | None => Returns (PyList [])
  end.

(** Strategy 2: the keys of [widget._annot.get("/AP")["/N"]]. *)
Definition try_annot (w : Widget) (choices : pyval) : Probe pyval :=
  if negb (truthy choices) then
    match _annot w with
    | Some (Some annot) =>
        ap_dict <- annot_get_AP annot ;;
        match ap_dict with
        | Some {| ap_N := Some (WithKeys ks) |} => Returns (PyList ks)
        | _ => Returns choices
        end
    | _ => Returns choices
    end
  else Returns choices.

(** Strategy 3: the keys of [widget._get_widget()["/AP"]["/N"]], inside
    its own [try: ... except: pass]. *)
Definition try_widget_obj (w : Widget) (choices : pyval) : pyval :=
  if negb (truthy choices) then
    try_except
      (widget_obj <- _get_widget w ;;
       match widget_obj with
       | Some {| wo_AP := Some {| ap_N := Some normal_ap |} |} =>
           match normal_ap with
           | WithKeys ks => Returns (PyList ks)
           | NoKeys => Raises
           end
       | _ => Returns choices
       end)
      choices
  else choices.

(** The values synthesized in the [except] handler. *)
Definition fallback_choices (field_value : string) : pyval :=
  if negb (field_value =? "")%string && negb (field_value =? "Off")%string
  then PyList ["Off"%string; field_value]
  else PyList ["Off"%string].

(** Lines 77-113: the value of [choices] for a widget whose type is
    ["CheckBox"]. *)
Definition checkbox_choices (w : Widget) (field_value : string) : pyval :=
  try_except
    (c1 <- try_button_states w ;;
     c2 <- try_annot w c1 ;;
     Returns (try_widget_obj w c2))
    (fallback_choices field_value).

(** [(str(x) != "Off", str(x))] *)
Definition choice_key (s : string) : bool * string :=
  (negb (s =? "Off")%string, s).

Definition choice_lt : bool * string -> bool * string -> bool :=
  tuple_lt Bool.eqb bool_ltb String.ltb.

(** The lists stored in a mapping, concatenated in key order. *)
Fixpoint flatten_values (d : list (string * dictval)) : list string :=
  match d with
  | [] => []
  | (_, DList l) :: d' => l ++ flatten_values d'
  | (_, DOther) :: d' => flatten_values d'
  end.

(** Lines 115-121: [if isinstance(choices, dict): ...] *)
Definition flatten_choices (choices : pyval) : pyval :=
  match choices with
  | PyDict d =>
      match flatten_values d with
      | [] => PyList []
      | all_choices => PyList (list_set all_choices)
      end
  | _ => choices
  end.

(** Lines 123-128: [if field_type == "CheckBox" and choices: sorted(...)] *)
Definition order_choices (field_type : string) (choices : pyval) : pyval :=
  if (field_type =? "CheckBox")%string && truthy choices then
    match choices with
    | PyList l => PyList (sorted choice_key choice_lt l)
    | _ => choices
    end
  else choices.

(** Lines 115-128 together: the normalization step. *)
Definition normalize_choices (field_type : string) (choices : pyval) : pyval :=
  order_choices field_type (flatten_choices choices).

(** The body of [for widget in widgets]: the record appended to
    [page_fields], if any. *)
Definition widget_field (page_num : nat) (page : Page) (w : Widget)
    : option field_data :=
  let field_type := field_type_string w in
  let field_value := str_or (field_value w) "" in
  match field_name w with
  | Some name =>
      if (name =? "")%string then None
      else
        let r := rect w in
        let converted_y := (page_height page - y1 r)%Q in
        let choices :=
          if (field_type =? "CheckBox")%string
          then checkbox_choices w field_value
          else PyList [] in
        Some {| f_page := page_num + 1;
                f_name := name;
                f_type := pdf_type_of field_type;
                f_field_type := field_type;
                f_current_value := field_value;
                f_choices := normalize_choices field_type choices;
                f_rect := [x0 r; converted_y; x1 r;
                           (converted_y + (y1 r - y0 r))%Q];
                f_x := x0 r;
                f_y := converted_y;
                f_width := (x1 r - x0 r)%Q;
                f_height := (y1 r - y0 r)%Q;
                f_field_flags := match field_flags w with
                                 | Some fl => fl
                                 | None => 0%Z
                                 end |}
  | None => None
  end.

(** [page_fields] once the loop over the widgets of a page is over. *)
Fixpoint page_fields (page_num : nat) (page : Page) (ws : list Widget)
    : list field_data :=
  match ws with
  | [] => []
  | w :: ws' =>
      match widget_field page_num page w with
      | Some fd => fd :: page_fields page_num page ws'
      | None => page_fields page_num page ws'
      end
  end.

(** [target_page is not None and page_num + 1 != target_page] *)
Definition skipped (target_page : option Z) (page_num : nat) : bool :=
  match target_page with
  | Some t => negb (Z.of_nat (page_num + 1) =? t)%Z
  | None => false
  end.

(** [all_fields] after the loop over the pages [page_num, page_num+1, ...]. *)
Fixpoint collect (target_page : option Z) (page_num : nat)
    (pages : list Page) : list field_data :=
  match pages with
  | [] => []
  | page :: pages' =>
      if skipped target_page page_num
      then collect target_page (S page_num) pages'
      else sort_fields_reading_order
             (page_fields page_num page (widgets page))
           ++ collect target_page (S page_num) pages'
  end.

(** [for i, field in enumerate(all_fields, 1): field["id"] = i].  Every
    element of [all_fields] is a dictionary created by its own evaluation of
    the literal [field_data = {...}] and appended once, so no two positions
    share an object. *)
Definition assign_ids (all_fields : list field_data) : list FormField :=
  map (fun p => {| id := fst p; data := snd p |}) (enumerate all_fields 1).

Section WithEngine.
(** [fitz.open(stream=pdf_data, filetype="pdf")] *)
Variable fitz_open : list Byte.byte -> Probe Document.

Definition discover_all_pdf_fields (pdf_data : list Byte.byte)
    (target_page : option Z) : list FormField :=
  try_except
    (pdf_document <- fitz_open pdf_data ;;
     Returns (assign_ids (collect target_page 0 pdf_document)))
    [].

(** The entry point: what [json.dumps] receives. *)
Definition main (pdf_data : list Byte.byte) (page_arg : option Z)
    : list FormField :=
  discover_all_pdf_fields pdf_data page_arg.
End WithEngine.

End Discover.

(** ** get_checkbox_values.py *)

Module Checkbox.

Local Open Scope probe_scope.

(** The dictionary stored under a field name. *)
Record entry : Type := {
  e_page : nat;
  e_current_value : string;
  e_possible_values : pyval;
  e_field_flags : Z
}.

(** [d[k] = v] on a dictionary kept in insertion order: an existing key
    keeps its position. *)
Fixpoint dict_set {V : Type} (d : list (string * V)) (k : string) (v : V)
    : list (string * V) :=
  match d with
  | [] => [(k, v)]
  | (k', v') :: d' =>
      if (k' =? k)%string then (k, v) :: d' else (k', v') :: dict_set d' k v
  end.

Definition flags_of (w : Widget) : Z :=
  match field_flags w with
  | Some fl => fl
  | None => 0%Z
  end.

Definition unknown_values : pyval := PyList ["Off"%string; "Unknown"%string].

(** Lines 30-44: [appearance_states] at the end of the [try] block, or the
    exception that left it. *)
Definition appearance_states (w : Widget) : Probe pyval :=
  states <- match button_states w with
            | Some call => call
            | None => Returns (PyList [])
            end ;;
  annot <- match _annot w with
           | Some a => Returns a
           | None => Raises
           end ;;
  match annot with
  | Some annot =>
      ap_dict <- annot_get_AP annot ;;
      match ap_dict with
      | Some {| ap_N := Some (WithKeys ks) |} => Returns (PyList ks)
      | _ => Returns states
      end
  | None => Returns states
  end.

(** Lines 46-62: the entry written for a named checkbox widget. *)
Definition checkbox_entry (page_num : nat) (w : Widget) : entry :=
  let current_value := str_or (field_value w) "Off" in
  try_except
    (states <- appearance_states w ;;
     Returns {| e_page := page_num + 1;
                e_current_value := current_value;
                e_possible_values :=
                  if truthy states then states else unknown_values;
                e_field_flags := flags_of w |})
    {| e_page := page_num + 1;
       e_current_value := current_value;
       e_possible_values := unknown_values;
       e_field_flags := flags_of w |}.

Fixpoint scan_widgets (page_num : nat) (ws : list Widget)
    (checkbox_values : list (string * entry)) : list (string * entry) :=
  match ws with
  | [] => checkbox_values
  | w :: ws' =>
      scan_widgets page_num ws'
        (if truthy_str (field_name w)
            && (field_type_string w =? "CheckBox")%string
         then dict_set checkbox_values (str_or (field_name w) "")
                       (checkbox_entry page_num w)
         else checkbox_values)
  end.

Fixpoint scan_pages (page_num : nat) (pages : list Page)
    (checkbox_values : list (string * entry)) : list (string * entry) :=
  match pages with
  | [] => checkbox_values
  | page :: pages' =>
      scan_pages (S page_num) pages'
        (scan_widgets page_num (widgets page) checkbox_values)
  end.

Section WithEngine.
Variable fitz_open : list Byte.byte -> Probe Document.

Definition get_checkbox_export_values (pdf_data : list Byte.byte)
    : list (string * entry) :=
  try_except
    (pdf_document <- fitz_open pdf_data ;;
     Returns (scan_pages 0 pdf_document []))
    [].

(** The entry point: what [json.dumps] receives. *)
Definition main (pdf_data : list Byte.byte) : list (string * entry) :=
  get_checkbox_export_values pdf_data.
End WithEngine.

End Checkbox.

(** ** pdf_to_markdown_images.py *)

Module Images.

Local Open Scope probe_scope.
Local Open Scope Z_scope.

Record image : Type := {
  i_page : Z;
  i_format : string;
  i_data : string;
  i_width : Z;
  i_height : Z;
  i_size_kb : Z
}.

(** The page-count ceiling of the safety check. *)
Definition MAX_TOTAL_PAGES : Z := 100.

(** The default of the parameter [max_pages]. *)
Definition DEFAULT_MAX_PAGES : Z := 50.

(** [list(range(n))] *)
Definition range (n : Z) : list Z := map Z.of_nat (seq 0 (Z.to_nat n)).

(** [l[:n]] for [n >= 0] *)
Definition take (n : Z) (l : list Z) : list Z := firstn (Z.to_nat n) l.

Section WithEngine.
Variable fitz_open : list Byte.byte -> Probe Document.
(** [base64.b64encode(...).decode('utf-8')] *)
Variable b64encode : list Byte.byte -> string.

Definition image_of (page_num : Z) (pix : Pixmap) : image :=
  {| i_page := page_num + 1;
     i_format := "jpeg";
     i_data := b64encode (jpeg pix);
     i_width := pix_width pix;
     i_height := pix_height pix;
     i_size_kb := Z.of_nat (List.length (jpeg pix)) / 1024 |}.

(** The loop [for page_num in page_numbers].  The first component lists
    the page numbers on which [get_pixmap] was called, the second is
    [images] at the end, or the exception that left the loop. *)
Fixpoint convert_pages (doc : Document) (total_pages : Z)
    (page_numbers : list Z) : list Z * Probe (list image) :=
  match page_numbers with
  | [] => ([], Returns [])
  | page_num :: rest =>
      if total_pages <=? page_num then convert_pages doc total_pages rest
      else
        match getitem doc page_num with
        | Raises => ([], Raises)
        | Returns page =>
            match get_pixmap page with
            | Raises => ([page_num], Raises)
            | Returns pix =>
                let (calls, images) := convert_pages doc total_pages rest in
                (page_num :: calls,
                 images <- images ;; Returns (image_of page_num pix :: images))
            end
        end
  end.

(** [pdf_to_images_for_ai(pdf_data, pages, max_pages)]: the rendering
    calls it made and the list it returns.  [pages = None] is the
    default argument. *)
Definition pdf_to_images_for_ai (pdf_data : list Byte.byte)
    (pages : option (list Z)) (max_pages : Z) : list Z * list image :=
  match fitz_open pdf_data with
  | Raises => ([], [])
  | Returns pdf_document =>
      let total_pages := Z.of_nat (List.length pdf_document) in
      if MAX_TOTAL_PAGES <? total_pages then ([], [])
      else
        let page_numbers :=
          match pages with
          | Some (p :: ps) => take max_pages (p :: ps)
          | _ => range (Z.min total_pages max_pages)
          end in
        let (calls, images) :=
          convert_pages pdf_document total_pages page_numbers in
        (calls, try_except images [])
  end.

(** One command-line argument, classified the way the argument loop
    tests it: [--save], [--output=dir], a bracketed JSON array of
    integers, a decimal integer, or text that neither [json.loads] nor
    [int] accepts. *)
Inductive cli_arg : Type :=
| ArgSave : cli_arg
| ArgOutput : string -> cli_arg
| ArgJsonPages : list Z -> cli_arg
| ArgInt : Z -> cli_arg
| ArgInvalid : cli_arg.

Record cli_state : Type := {
  pages : option (list Z);
  save_images : bool;
  output_dir : string
}.

Definition initial_state : cli_state :=
  {| pages := None; save_images := false; output_dir := "output" |}.

(** [not pages] *)
Definition no_pages (st : cli_state) : bool :=
  match pages st with
  | Some (_ :: _) => false
  | _ => true
  end.

(** One iteration of [for i, arg in enumerate(sys.argv[1:], 1)]. *)
Definition parse_arg (st : cli_state) (arg : cli_arg) : cli_state :=
  match arg with
  | ArgSave =>
      {| pages := pages st; save_images := true;
         output_dir := output_dir st |}
  | ArgOutput dir =>
      {| pages := pages st; save_images := true; output_dir := dir |}
  | ArgJsonPages ps =>
      if no_pages st then
        {| pages := Some (map (fun p => p - 1) (filter (fun p => 0 <? p) ps));
           save_images := save_images st; output_dir := output_dir st |}
      else st
  | ArgInt page_num =>
      if no_pages st && (0 <? page_num) then
        {| pages := Some [page_num - 1];
           save_images := save_images st; output_dir := output_dir st |}
      else st
  | ArgInvalid => st
  end.

Definition parse_args (argv : list cli_arg) : cli_state :=
  fold_left parse_arg argv initial_state.

(** The entry point: the rendering calls made and what [json.dumps]
    receives.  Saving the images to files does not change either. *)
Definition main (pdf_data : list Byte.byte) (argv : list cli_arg)
    : list Z * list image :=
  pdf_to_images_for_ai pdf_data (pages (parse_args argv)) DEFAULT_MAX_PAGES.
End WithEngine.

End Images.

(** ** fill_form_fields_fitz_v2.py *)

Module Fill.

Local Open Scope probe_scope.

(** [name in field_values] and [str(field_values[name])] on the decoded
    JSON object. *)
Fixpoint lookup (field_values : list (string * string)) (name : string)
    : option string :=
  match field_values with
  | [] => None
  | (k, v) :: rest => if (k =? name)%string then Some v else lookup rest name
  end.

(** The body of the second loop for one widget that has a name and is asked
    for: [widget.field_value = field_value] runs first, so the widget holds
    the new value whether or not the [widget.update()] that follows raises;
    a raise is caught on the spot and only keeps the widget out of the
    count of filled fields. *)
Definition fill_widget (field_values : list (string * string)) (w : Widget)
    : Widget :=
  if truthy_str (field_name w) then
    match lookup field_values (str_or (field_name w) "") with
    | Some v =>
        {| field_name := field_name w;
           field_type_string := field_type_string w;
           field_value := Some v;
           rect := rect w;
           field_flags := field_flags w;
           button_states := button_states w;
           _annot := _annot w;
           _get_widget := _get_widget w;
           update_raises := update_raises w |}
    | None => w
    end
  else w.

(** [page_filled] at the end of a page: the asked-for widgets whose
    [update()] did not raise. *)
Definition page_filled (field_values : list (string * string)) (p : Page)
    : nat :=
  List.length
    (filter
       (fun w =>
          truthy_str (field_name w)
          && match lookup field_values (str_or (field_name w) "") with
             | Some _ => negb (update_raises w)
             | None => false
             end)
       (widgets p)).

Definition fill_page (field_values : list (string * string)) (p : Page)
    : Page :=
  {| page_height := page_height p;
     widgets := map (fill_widget field_values) (widgets p);
     get_pixmap := get_pixmap p |}.

(** The keys of [form_data]: the named widgets that are asked for. *)
Definition form_data (field_values : list (string * string))
    (doc : Document) : list string :=
  flat_map
    (fun p =>
       flat_map
         (fun w =>
            if truthy_str (field_name w) then
              match lookup field_values (str_or (field_name w) "") with
              | Some _ => [str_or (field_name w) ""]
              | None => []
              end
            else [])
         (widgets p))
    doc.

Definition fill_document (field_values : list (string * string))
    (doc : Document) : Document :=
  match form_data field_values doc with
  | [] => doc
  | _ :: _ => map (fill_page field_values) doc
  end.

(** [filled_count] as reported on the diagnostic stream. *)
Definition filled_count (field_values : list (string * string))
    (doc : Document) : nat :=
  match form_data field_values doc with
  | [] => 0
  | _ :: _ => list_sum (map (page_filled field_values) doc)
  end.

Section WithEngine.
Variable fitz_open : list Byte.byte -> Probe Document.
(** [pdf_document.tobytes()] *)
Variable tobytes : Document -> Probe (list Byte.byte).

(** [None] is the value returned by the outer [except] handler. *)
Definition fill_pdf_form_with_fitz_v2 (pdf_data : list Byte.byte)
    (field_values : list (string * string)) : option (list Byte.byte) :=
  try_except
    (pdf_document <- fitz_open pdf_data ;;
     pdf_bytes <- tobytes (fill_document field_values pdf_document) ;;
     Returns (Some pdf_bytes))
    None.

(** The entry point: the bytes written to standard output.  The
    verification pass in between only prints diagnostics. *)
Definition main (pdf_data : list Byte.byte)
    (field_values : list (string * string)) : list Byte.byte :=
  match fill_pdf_form_with_fitz_v2 pdf_data field_values with
  | Some result => result
  | None => pdf_data
  end.
End WithEngine.

End Fill.

(** ** Derived notions used in the statements *)

Module Notions.

(** The widget has a name the scripts accept. *)
Definition named (w : Widget) : bool := truthy_str (field_name w).







(** The number of named widgets on the pages that are not skipped. *)
Fixpoint discovered_count (target_page : option Z) (page_num : nat)
    (pages : list Page) : nat :=
  match pages with
  | [] => 0
  | page :: pages' =>
      (if Discover.skipped target_page page_num then 0
       else List.length (filter named (widgets page)))
      + discovered_count target_page (S page_num) pages'
  end.

(** Ascending string order. *)
Definition ascending (a b : string) : Prop := (a <=? b)%string = true.

End Notions.

Import Notions.

(** ** Sample inputs *)

Module Samples.

Local Open Scope string_scope.

Definition text_widget (name : string) (left top : Q) : Widget :=
  {| field_name := Some name;
     field_type_string := "Text";
     field_value := None;
     rect := {| x0 := left; y0 := 792 - top - 20;
                x1 := left + 100; y1 := 792 - top |};
     field_flags := Some 0%Z;
     button_states := None;
     _annot := Some None;
     _get_widget := Raises;
     update_raises := false |}.

Definition checkbox_widget (name : string) (value : option string)
    (states : option (Probe pyval)) (annot : option (option Annot))
    (obj : Probe (option WidgetObj)) : Widget :=
  {| field_name := Some name;
     field_type_string := "CheckBox";
     field_value := value;
     rect := {| x0 := 10; y0 := 100; x1 := 22; y1 := 112 |};
     field_flags := Some 0%Z;
     button_states := states;
     _annot := annot;
     _get_widget := obj;
     update_raises := false |}.

Definition letter (ws : list Widget) : Page :=
  {| page_height := 792;
     widgets := ws;
     get_pixmap := Returns {| pix_width := 612; pix_height := 792;
                              jpeg := [Byte.xff; Byte.xd8] |} |}.

(** Two text fields whose converted [y] is 300 and 301: one snapped row. *)
Definition left_widget : Widget := text_widget "left" 50 300.
Definition right_widget : Widget := text_widget "right" 200 301.
Definition row_page : Page := letter [left_widget; right_widget].

(** Two text fields whose converted [y] is negative: rows -20 and -40. *)
Definition minus20_widget : Widget := text_widget "minus20" 10 (-20).
Definition minus40_widget : Widget := text_widget "minus40" 10 (-40).
Definition negative_page : Page := letter [minus20_widget; minus40_widget].

(** Two text fields at the same [x] whose converted [y] is 300 and 301. *)
Definition first_widget : Widget := text_widget "first" 50 300.
Definition second_widget : Widget := text_widget "second" 50 301.
Definition column_page : Page := letter [first_widget; second_widget].



(** A checkbox whose appearance dictionary lists ["Yes"] before ["Off"]. *)
Definition yes_off_annot : Annot :=
  {| annot_get_AP :=
       Returns (Some {| ap_N := Some (WithKeys ["Yes"; "Off"]) |}) |}.
Definition yes_off_checkbox : Widget :=
  checkbox_widget "agree" (Some "Yes") None (Some (Some yes_off_annot))
                  (Returns None).

(** A checkbox whose [button_states()] returns a list that repeats a
    state. *)
Definition repeating_checkbox : Widget :=
  checkbox_widget "agree" (Some "Yes")
                  (Some (Returns (PyList ["Yes"; "Yes"])))
                  (Some None) (Returns None).

(** The mapping [button_states()] returns for an ordinary checkbox. *)
Definition grouped_states : pyval :=
  PyDict [("normal", DList ["Yes"; "Off"]); ("down", DList ["Yes"; "Off"])].

Definition unnamed_widget : Widget :=
  {| field_name := None;
     field_type_string := "Text";
     field_value := None;
     rect := {| x0 := 0; y0 := 0; x1 := 10; y1 := 10 |};
     field_flags := None;
     button_states := None;
     _annot := None;
     _get_widget := Raises;
     update_raises := false |}.

Definition form_doc : Document :=
  [row_page; letter [unnamed_widget; yes_off_checkbox]; column_page].

Definition long_doc : Document := repeat (letter []) 150.

(** An engine that opens exactly the inputs starting with [%PDF]. *)
Definition opens (doc : Document) (pdf_data : list Byte.byte)
    : Probe Document :=
  match pdf_data with
  | Byte.x25 :: Byte.x50 :: Byte.x44 :: Byte.x46 :: _ => Returns doc
  | _ => Raises
  end.

Definition good_bytes : list Byte.byte :=
  [Byte.x25; Byte.x50; Byte.x44; Byte.x46; Byte.x2d].
Definition bad_bytes : list Byte.byte := [Byte.x00; Byte.x01].

(** A stand-in for the encoder: one character per byte. *)
Definition encode (bs : list Byte.byte) : string :=
  string_of_list_byte bs.

Definition serialize (doc : Document) : Probe (list Byte.byte) :=
  Returns good_bytes.

End Samples.

(** ** fill_form_fields_fitz_v2.py: the verification pass *)

Module FillCheck.

Local Open Scope probe_scope.

(** The dictionary stored under a field name by [verify_filled_pdf]. *)
Record info : Type := {
  v_value : string;
  v_type : string;
  v_page : nat
}.

Definition widget_info (page_num : nat) (w : Widget) : info :=
  {| v_value := str_or (field_value w) "";
     v_type := field_type_string w;
     v_page := page_num + 1 |}.

Fixpoint scan_widgets (page_num : nat) (ws : list Widget)
    (verification_results : list (string * info)) : list (string * info) :=
  match ws with
  | [] => verification_results
  | w :: ws' =>
      scan_widgets page_num ws'
        (if truthy_str (field_name w)
         then Checkbox.dict_set verification_results
                (str_or (field_name w) "") (widget_info page_num w)
         else verification_results)
  end.

Fixpoint scan_pages (page_num : nat) (pages : list Page)
    (verification_results : list (string * info)) : list (string * info) :=
  match pages with
  | [] => verification_results
  | page :: pages' =>
      scan_pages (S page_num) pages'
        (scan_widgets page_num (widgets page) verification_results)
  end.

(** The loop over [verification.items()] of the entry point: for every
    reported field that was asked for, whether the value read back equals
    the expected one ("Verified") or not ("Mismatch"). *)
Fixpoint verdicts (field_values : list (string * string))
    (verification : list (string * info)) : list (string * bool) :=
  match verification with
  | [] => []
  | (field_name, field_info) :: rest =>
      match Fill.lookup field_values field_name with
      | Some expected =>
          (field_name, (v_value field_info =? expected)%string)
          :: verdicts field_values rest
      | None => verdicts field_values rest
      end
  end.

Section WithEngine.
Variable fitz_open : list Byte.byte -> Probe Document.
Variable tobytes : Document -> Probe (list Byte.byte).

Definition verify_filled_pdf (pdf_data : list Byte.byte)
    : list (string * info) :=
  try_except
    (pdf_document <- fitz_open pdf_data ;;
     Returns (scan_pages 0 pdf_document []))
    [].

(** The diagnostics of the entry point between filling and writing: the
    verdicts printed when [result] is truthy, none otherwise. *)
Definition main_report (pdf_data : list Byte.byte)
    (field_values : list (string * string)) : list (string * bool) :=
  match Fill.fill_pdf_form_with_fitz_v2 fitz_open tobytes pdf_data
          field_values with
  | Some (b :: result) =>
      verdicts field_values (verify_filled_pdf (b :: result))
  | _ => []
  end.
End WithEngine.

End FillCheck.

(** ** verify_pdf.py *)

Module VerifyPdf.

Local Open Scope probe_scope.

Record found : Type := {
  r_value : string;
  r_type : string;
  r_page : nat
}.

Definition widget_found (page_num : nat) (w : Widget) : found :=
  {| r_value := str_or (field_value w) "";
     r_type := field_type_string w;
     r_page := page_num + 1 |}.

Fixpoint scan_widgets (page_num : nat) (ws : list Widget)
    (found_fields : list (string * found)) : list (string * found) :=
  match ws with
  | [] => found_fields
  | w :: ws' =>
      scan_widgets page_num ws'
        (if truthy_str (field_name w) && truthy_str (field_value w)
         then Checkbox.dict_set found_fields
                (str_or (field_name w) "") (widget_found page_num w)
         else found_fields)
  end.

Fixpoint scan_pages (page_num : nat) (pages : list Page)
    (found_fields : list (string * found)) : list (string * found) :=
  match pages with
  | [] => found_fields
  | page :: pages' =>
      scan_pages (S page_num) pages'
        (scan_widgets page_num (widgets page) found_fields)
  end.

(** How the process ends: [sys.exit(1)] after the usage line, or normally
    with the fields [verify_pdf_fields] returned. *)
Inductive outcome : Type :=
| Usage : outcome
| Done : list (string * found) -> outcome.

Section WithEngine.
(** [fitz.open(pdf_path)] *)
Variable fitz_open_path : string -> Probe Document.

Definition verify_pdf_fields (pdf_path : string) : list (string * found) :=
  try_except
    (pdf_document <- fitz_open_path pdf_path ;;
     Returns (scan_pages 0 pdf_document []))
    [].

(** The entry point on [sys.argv[1:]]. *)
Definition main (args : list string) : outcome :=
  match args with
  | [] => Usage
  | pdf_path :: _ => Done (verify_pdf_fields pdf_path)
  end.
End WithEngine.

End VerifyPdf.

(** ** pdf_to_markdown_images.py: saving the images *)

Module ImageSave.

Local Open Scope string_scope.

(** [f"{n:02d}"]: the decimal digits of [n] (with its sign), padded with a
    zero to two characters. *)
Definition two_digits (n : Z) : string :=
  let digits := NilZero.string_of_int (Z.to_int n) in
  if (String.length digits <? 2)%nat then "0" ++ digits else digits.

(** [os.path.join(directory, name)] for a relative [name] on a POSIX
    system. *)
Definition path_join (directory name : string) : string :=
  match String.length directory with
  | O => name
  | S n =>
      match String.get n directory with
      | Some "/"%char => directory ++ name
      | _ => directory ++ "/" ++ name
      end
  end.

(** [os.path.join(output_dir, f"page_{page_num:02d}.{format_type}")] *)
Definition file_name (output_dir : string) (item : Images.image) : string :=
  path_join output_dir
    ("page_" ++ two_digits (Images.i_page item) ++ "." ++ Images.i_format item).


Section WithEngine.
Variable fitz_open : list Byte.byte -> Probe Document.
Variable b64encode : list Byte.byte -> string.
(** [base64.b64decode] *)
Variable b64decode : string -> list Byte.byte.


End WithEngine.

End ImageSave.

(** ** Further notions used in the statements *)

Module Coverage.

(** [d.get(k)] on a dictionary kept as a list of bindings. *)
Fixpoint dict_get {V : Type} (d : list (string * V)) (k : string)
    : option V :=
  match d with
  | [] => None
  | (k', v) :: d' => if (k' =? k)%string then Some v else dict_get d' k
  end.

(** The writes [d[k] = v] a loop performs, replayed in order. *)
Definition write_all {V : Type} (l : list (string * V))
    (d : list (string * V)) : list (string * V) :=
  fold_left (fun d kv => Checkbox.dict_set d (fst kv) (snd kv)) l d.

(** The bindings a scan of the document writes, in document order: one for
    every widget that [sel] accepts. *)
Definition page_bindings {V : Type} (sel : Widget -> bool)
    (mk : nat -> Widget -> V) (page_num : nat) (ws : list Widget)
    : list (string * V) :=
  flat_map
    (fun w => if sel w then [(str_or (field_name w) "", mk page_num w)]
              else [])
    ws.

Fixpoint bindings {V : Type} (sel : Widget -> bool)
    (mk : nat -> Widget -> V) (page_num : nat) (pages : list Page)
    : list (string * V) :=
  match pages with
  | [] => []
  | page :: pages' =>
      page_bindings sel mk page_num (widgets page)
      ++ bindings sel mk (S page_num) pages'
  end.

(** A named checkbox widget. *)
Definition is_checkbox (w : Widget) : bool :=
  truthy_str (field_name w) && (field_type_string w =? "CheckBox")%string.

(** A widget with a name and a value. *)
Definition is_filled (w : Widget) : bool :=
  truthy_str (field_name w) && truthy_str (field_value w).

(** The widget is named and its name is a key of [field_values]. *)
Definition asked (field_values : list (string * string)) (w : Widget)
    : bool :=
  named w &&
  match Fill.lookup field_values (str_or (field_name w) "") with
  | Some _ => true
  | None => false
  end.

(** The values a raw [choices] value holds. *)
Definition raw_values (c : pyval) : list string :=
  match c with
  | PyNone => []
  | PyList l => l
  | PyDict d => Discover.flatten_values d
  end.

(** The field has the same [y] and the same [x] as [f0]. *)
Definition same_position (f0 f : Discover.field_data) : bool :=
  Qeq_bool (Discover.f_y f) (Discover.f_y f0)
  && Qeq_bool (Discover.f_x f) (Discover.f_x f0).

(** Rendering the page does not raise. *)
Definition renders (p : Page) : bool :=
  match get_pixmap p with
  | Returns _ => true
  | Raises => false
  end.

End Coverage.

Import Coverage.

(** ** Further sample inputs *)

Module Samples2.

Local Open Scope string_scope.

(** The page of the discovery scenario: D at (10, 50) found before C at
    (10, 100). *)
Definition scenario_page : Page :=
  Samples.letter [Samples.text_widget "D" 10 50;
                  Samples.text_widget "C" 10 100].

(** Two pages that both carry a checkbox named "agree". *)
Definition agree_on : Widget :=
  Samples.checkbox_widget "agree" (Some "Yes")
    (Some (Returns (PyList ["Off"; "Yes"]))) (Some None) (Returns None).
Definition agree_off : Widget :=
  Samples.checkbox_widget "agree" None
    (Some (Returns (PyList ["Off"; "On"]))) (Some None) (Returns None).
Definition twice_doc : Document :=
  [Samples.letter [agree_on]; Samples.letter [agree_off]].

(** An engine that opens [good_bytes] as the first of the two pages and
    [filled_bytes] as both. *)
Definition twice_open (pdf_data : list Byte.byte) : Probe Document :=
  match pdf_data with
  | [Byte.x25; Byte.x50; Byte.x44; Byte.x46; Byte.x2d] =>
      Returns [Samples.letter [agree_on]]
  | [Byte.x25; Byte.x50; Byte.x44; Byte.x46; Byte.x2b] => Returns twice_doc
  | _ => Raises
  end.

(** A checkbox with both a state list and appearance keys. *)
Definition both_checkbox : Widget :=
  Samples.checkbox_widget "agree" (Some "Yes")
    (Some (Returns (PyList ["Off"; "1"])))
    (Some (Some Samples.yes_off_annot)) (Returns None).

(** The fields of the discovery scenario, as the sorter receives them. *)
Definition field_at (name : string) (x y : Q) : Discover.field_data :=
  {| Discover.f_page := 1;
     Discover.f_name := name;
     Discover.f_type := "/Tx";
     Discover.f_field_type := "Text";
     Discover.f_current_value := "";
     Discover.f_choices := PyList [];
     Discover.f_rect := [x; y; x + 100; y + 20]%Q;
     Discover.f_x := x;
     Discover.f_y := y;
     Discover.f_width := 100;
     Discover.f_height := 20;
     Discover.f_field_flags := 0 |}.
Definition field_C : Discover.field_data := field_at "C" 10 100.
Definition field_D : Discover.field_data := field_at "D" 10 50.

(** A page that cannot be rendered. *)
Definition torn_page : Page :=
  {| page_height := 792; widgets := []; get_pixmap := Raises |}.
Definition torn_doc : Document :=
  [Samples.letter []; torn_page; Samples.letter []].
Definition plain_doc : Document :=
  [Samples.letter []; Samples.letter []; Samples.letter []].

(** A form with a name field on each of two pages. *)
Definition name_widget : Widget := Samples.text_widget "name" 50 100.
Definition date_widget : Widget := Samples.text_widget "date" 50 200.
Definition jane_doc : Document :=
  [Samples.letter [name_widget; date_widget]; Samples.letter [name_widget]].
Definition jane_values : list (string * string) := [("name", "Jane")].

Definition filled_bytes : list Byte.byte :=
  [Byte.x25; Byte.x50; Byte.x44; Byte.x46; Byte.x2b].

(** An engine that opens [good_bytes] as the form and [filled_bytes] as
    the filled form, and writes every document as [filled_bytes]. *)
Definition jane_open (pdf_data : list Byte.byte) : Probe Document :=
  match pdf_data with
  | [Byte.x25; Byte.x50; Byte.x44; Byte.x46; Byte.x2d] => Returns jane_doc
  | [Byte.x25; Byte.x50; Byte.x44; Byte.x46; Byte.x2b] =>
      Returns (Fill.fill_document jane_values jane_doc)
  | _ => Raises
  end.
Definition jane_tobytes (doc : Document) : Probe (list Byte.byte) :=
  Returns filled_bytes.


(** A path-based engine for the verification script. *)
Definition path_open (pdf_path : string) : Probe Document :=
  if (pdf_path =? "form.pdf") then Returns Samples.form_doc else Raises.

End Samples2.

(** ** Properties of [sorted] *)

Lemma sw_asym (K : Type) (lt : K -> K -> bool) (SW : StrictWeak lt) (a b : K) :
  lt a b = true -> lt b a = false.
Proof.
  intros Hab. destruct (lt b a) eqn:Hba; [|reflexivity].
  rewrite <- (sw_irrefl SW a). symmetry. exact (sw_trans SW _ _ _ Hab Hba).
Qed.

Section SortedFacts.
Variables (A K : Type) (key : A -> K) (lt : K -> K -> bool).

Lemma insert_perm (a : A) (l : list A) :
  Permutation (insert key lt a l) (a :: l).
Proof.
  induction l as [|b l IH]; simpl; [reflexivity|].
  destruct (lt (key b) (key a)); [|reflexivity].
  rewrite IH. apply perm_swap.
Qed.

Lemma sorted_perm (l : list A) : Permutation (sorted key lt l) l.
Proof.
  induction l as [|a l IH]; simpl; [constructor|].
  rewrite insert_perm. now constructor.
Qed.

Lemma sorted_length (l : list A) :
  List.length (sorted key lt l) = List.length l.
Proof. apply Permutation_length, sorted_perm. Qed.

Lemma sorted_In (a : A) (l : list A) : In a (sorted key lt l) <-> In a l.
Proof.
  split; apply Permutation_in; [|symmetry]; apply sorted_perm.
Qed.

Lemma sorted_fixpoint (l : list A) :
  StronglySorted (key_le key lt) l -> sorted key lt l = l.
Proof.
  induction 1 as [|a l Hs IH Hall]; simpl; [reflexivity|].
  rewrite IH. destruct l as [|b l]; simpl; [reflexivity|].
  inversion Hall as [|? ? Hab _]; subst.
  unfold key_le in Hab. now rewrite Hab.
Qed.

Hypothesis SW : StrictWeak lt.

Lemma insert_sorted (a : A) (l : list A) :
  StronglySorted (key_le key lt) l ->
  StronglySorted (key_le key lt) (insert key lt a l).
Proof.
  induction 1 as [|b l Hs IH Hall]; simpl.
  - repeat constructor.
  - destruct (lt (key b) (key a)) eqn:Hba.
    + constructor; [exact IH|].
      apply (Permutation_Forall (Permutation_sym (insert_perm a l))).
      constructor; [|exact Hall].
      unfold key_le. now apply sw_asym.
    + constructor; [now constructor|].
      constructor; [exact Hba|].
      apply Forall_forall. intros c Hc.
      rewrite Forall_forall in Hall. specialize (Hall c Hc).
      unfold key_le in *. exact (sw_negtrans SW _ _ _ Hall Hba).
Qed.

Lemma sorted_sorted (l : list A) :
  StronglySorted (key_le key lt) (sorted key lt l).
Proof.
  induction l as [|a l IH]; simpl; [constructor|now apply insert_sorted].
Qed.

Lemma sorted_idempotent (l : list A) :
  sorted key lt (sorted key lt l) = sorted key lt l.
Proof. apply sorted_fixpoint, sorted_sorted. Qed.

Lemma same_key_trans (k1 k2 k3 : K) :
  same_key lt k1 k2 = true -> same_key lt k2 k3 = true ->
  same_key lt k1 k3 = true.
Proof.
  unfold same_key. rewrite !andb_true_iff, !negb_true_iff.
  intros [H12 H21] [H23 H32]. split.
  - exact (sw_negtrans SW _ _ _ H12 H23).
  - exact (sw_negtrans SW _ _ _ H32 H21).
Qed.

Lemma same_key_sym (k1 k2 : K) : same_key lt k1 k2 = same_key lt k2 k1.
Proof. unfold same_key. apply andb_comm. Qed.

(** Stability: the elements of one key class keep their input order. *)
Lemma insert_stable (k : K) (a : A) (l : list A) :
  filter (fun b => same_key lt (key b) k) (insert key lt a l)
  = filter (fun b => same_key lt (key b) k) (a :: l).
Proof.
  induction l as [|b l IH]; [reflexivity|].
  simpl insert. destruct (lt (key b) (key a)) eqn:Hba; [|reflexivity].
  simpl filter at 1. rewrite IH. simpl.
  destruct (same_key lt (key a) k) eqn:Ha; [|reflexivity].
  destruct (same_key lt (key b) k) eqn:Hb; [|reflexivity].
  exfalso. rewrite same_key_sym in Ha.
  pose proof (same_key_trans _ _ _ Hb Ha) as Hab.
  unfold same_key in Hab. rewrite Hba in Hab. discriminate.
Qed.

Lemma sorted_stable (k : K) (l : list A) :
  filter (fun b => same_key lt (key b) k) (sorted key lt l)
  = filter (fun b => same_key lt (key b) k) l.
Proof.
  induction l as [|a l IH]; [reflexivity|].
  simpl sorted. rewrite insert_stable. simpl. now rewrite IH.
Qed.
End SortedFacts.

(** ** The key comparisons are strict weak orders *)

Lemma Qltb_lt (a b : Q) : Qltb a b = true <-> (a < b)%Q.
Proof.
  unfold Qltb. rewrite negb_true_iff.
  split; intros H.
  - apply Qnot_le_lt. intros Hle. apply Qle_bool_iff in Hle. congruence.
  - destruct (Qle_bool b a) eqn:E; [|reflexivity].
    apply Qle_bool_iff in E. exfalso. exact (Qlt_not_le _ _ H E).
Qed.

Lemma Qltb_ge (a b : Q) : Qltb a b = false <-> (b <= a)%Q.
Proof.
  unfold Qltb. rewrite negb_false_iff. apply Qle_bool_iff.
Qed.

Lemma Qltb_strict_weak : StrictWeak Qltb.
Proof.
  constructor.
  - intros a. apply Qltb_ge, Qle_refl.
  - intros a b c. rewrite !Qltb_lt. apply Qlt_trans.
  - intros a b c. rewrite !Qltb_ge. intros H1 H2. exact (Qle_trans _ _ _ H2 H1).
Qed.

Lemma Qeq_bool_same_key (a b : Q) : Qeq_bool a b = same_key Qltb a b.
Proof.
  unfold same_key. destruct (Qeq_bool a b) eqn:E; symmetry.
  - apply Qeq_bool_iff in E. apply andb_true_iff.
    rewrite !negb_true_iff, !Qltb_ge, E. split; apply Qle_refl.
  - apply andb_false_iff. rewrite !negb_false_iff, !Qltb_lt.
    destruct (Q_dec a b) as [[Hlt|Hgt]|Heq]; auto.
    apply Qeq_bool_iff in Heq. congruence.
Qed.

Lemma string_ltb_lt (a b : string) :
  String.ltb a b = true <-> String_as_OT.lt a b.
Proof.
  rewrite <- String_as_OT.cmp_lt. unfold String.ltb, String_as_OT.cmp.
  destruct (String.compare a b); split; congruence.
Qed.

Lemma string_ltb_ge (a b : string) :
  String.ltb a b = false <-> a = b \/ String_as_OT.lt b a.
Proof.
  rewrite <- String_as_OT.cmp_lt, <- String_as_OT.cmp_eq.
  unfold String.ltb, String_as_OT.cmp.
  rewrite (String.compare_antisym a b).
  destruct (String.compare b a); simpl; split; intros H;
    try congruence; auto; destruct H; congruence.
Qed.

Lemma string_ltb_strict_weak : StrictWeak String.ltb.
Proof.
  constructor.
  - intros a. apply string_ltb_ge. now left.
  - intros a b c. rewrite !string_ltb_lt. apply String_as_OT.lt_trans.
  - intros a b c. rewrite !string_ltb_ge.
    intros [->|Hba] [->|Hcb]; auto.
    right. exact (String_as_OT.lt_trans _ _ _ Hcb Hba).
Qed.

Lemma bool_ltb_strict_weak : StrictWeak bool_ltb.
Proof.
  constructor.
  - now intros [].
  - now intros [] [] [].
  - now intros [] [] [].
Qed.

Lemma bool_eqb_same_key (a b : bool) : Bool.eqb a b = same_key bool_ltb a b.
Proof. now destruct a, b. Qed.

Section TupleOrder.
Variables (A B : Type) (eqA ltA : A -> A -> bool) (ltB : B -> B -> bool).
Hypothesis SWA : StrictWeak ltA.
Hypothesis SWB : StrictWeak ltB.
Hypothesis eqA_spec : forall a b, eqA a b = same_key ltA a b.

Lemma eqA_true (a b : A) :
  eqA a b = true <-> ltA a b = false /\ ltA b a = false.
Proof.
  rewrite eqA_spec. unfold same_key.
  now rewrite andb_true_iff, !negb_true_iff.
Qed.

Lemma eqA_false (a b : A) :
  eqA a b = false <-> ltA a b = true \/ ltA b a = true.
Proof.
  rewrite eqA_spec. unfold same_key.
  now rewrite andb_false_iff, !negb_false_iff.
Qed.

Lemma eqA_trans (a b c : A) :
  eqA a b = true -> eqA b c = true -> eqA a c = true.
Proof. rewrite !eqA_spec. now apply same_key_trans. Qed.

Lemma eqA_sym (a b : A) : eqA a b = eqA b a.
Proof. rewrite !eqA_spec. apply same_key_sym. Qed.

(** An element keeps its side of [<] when replaced by an equal one. *)
Lemma ltA_eq_l (a b c : A) : eqA a b = true -> ltA a c = ltA b c.
Proof.
  intros E. apply eqA_true in E. destruct E as [Hab Hba].
  destruct (ltA a c) eqn:Hac, (ltA b c) eqn:Hbc; try reflexivity.
  - pose proof (sw_negtrans SWA _ _ _ Hab Hbc). congruence.
  - pose proof (sw_negtrans SWA _ _ _ Hba Hac). congruence.
Qed.

Lemma ltA_eq_r (a b c : A) : eqA a b = true -> ltA c a = ltA c b.
Proof.
  intros E. apply eqA_true in E. destruct E as [Hab Hba].
  destruct (ltA c a) eqn:Hca, (ltA c b) eqn:Hcb; try reflexivity.
  - pose proof (sw_negtrans SWA _ _ _ Hcb Hba). congruence.
  - pose proof (sw_negtrans SWA _ _ _ Hca Hab). congruence.
Qed.

Lemma tuple_lt_strict_weak : StrictWeak (tuple_lt eqA ltA ltB).
Proof.
  constructor.
  - intros [a b]. unfold tuple_lt; simpl.
    assert (E : eqA a a = true)
      by (apply eqA_true; split; apply (sw_irrefl SWA)).
    rewrite E. apply (sw_irrefl SWB).
  - intros [a1 b1] [a2 b2] [a3 b3]. unfold tuple_lt; simpl.
    destruct (eqA a1 a2) eqn:E12, (eqA a2 a3) eqn:E23.
    + rewrite (eqA_trans E12 E23). apply (sw_trans SWB).
    + intros _ H. assert (E13 : eqA a1 a3 = false).
      { destruct (eqA a1 a3) eqn:E13; [|reflexivity].
        rewrite eqA_sym in E12.
        pose proof (eqA_trans E12 E13). congruence. }
      rewrite E13. now rewrite (ltA_eq_l a3 E12).
    + intros H _. assert (E13 : eqA a1 a3 = false).
      { destruct (eqA a1 a3) eqn:E13; [|reflexivity].
        rewrite eqA_sym in E23.
        pose proof (eqA_trans E13 E23). congruence. }
      rewrite E13. now rewrite <- (ltA_eq_r a1 E23).
    + intros H12 H23. pose proof (sw_trans SWA _ _ _ H12 H23) as H13.
      assert (E13 : eqA a1 a3 = false) by (apply eqA_false; now left).
      now rewrite E13.
  - intros [a1 b1] [a2 b2] [a3 b3]. unfold tuple_lt; simpl.
    destruct (eqA a1 a2) eqn:E12, (eqA a2 a3) eqn:E23.
    + rewrite (eqA_trans E12 E23). apply (sw_negtrans SWB).
    + intros _ H. assert (E13 : eqA a1 a3 = false).
      { destruct (eqA a1 a3) eqn:E13; [|reflexivity].
        rewrite eqA_sym in E12.
        pose proof (eqA_trans E12 E13). congruence. }
      rewrite E13. now rewrite (ltA_eq_l a3 E12).
    + intros H _. assert (E13 : eqA a1 a3 = false).
      { destruct (eqA a1 a3) eqn:E13; [|reflexivity].
        rewrite eqA_sym in E23.
        pose proof (eqA_trans E13 E23). congruence. }
      rewrite E13. now rewrite <- (ltA_eq_r a1 E23).
    + intros H12 H23. pose proof (sw_negtrans SWA _ _ _ H12 H23) as H13.
      destruct (eqA a1 a3) eqn:E13; [|exact H13].
      exfalso. apply eqA_false in E12. apply eqA_true in E13.
      destruct E13 as [_ H31]. destruct E12 as [H|H]; [congruence|].
      pose proof (sw_negtrans SWA _ _ _ H23 H31) as H21. congruence.
Qed.
End TupleOrder.

Lemma key_lt_strict_weak : StrictWeak Discover.key_lt.
Proof.
  apply tuple_lt_strict_weak.
  - apply Qltb_strict_weak.
  - apply Qltb_strict_weak.
  - apply Qeq_bool_same_key.
Qed.

Lemma choice_lt_strict_weak : StrictWeak Discover.choice_lt.
Proof.
  apply tuple_lt_strict_weak.
  - apply bool_ltb_strict_weak.
  - apply string_ltb_strict_weak.
  - apply bool_eqb_same_key.
Qed.

(** ** The reading-order sorter *)

Import Discover.

Lemma reading_order_perm (fields : list field_data) :
  Permutation (sort_fields_reading_order fields) fields.
Proof. apply sorted_perm. Qed.

Lemma reading_order_sorted (fields : list field_data) :
  StronglySorted (key_le get_sort_key key_lt)
                 (sort_fields_reading_order fields).
Proof. apply sorted_sorted, key_lt_strict_weak. Qed.

(** The sort is stable over the keys it really uses: the fields whose key
    [(row * -y, x)] equals [k] come out in their input order. *)
Lemma reading_order_stable (k : Q * Q) (fields : list field_data) :
  filter (fun f => same_key key_lt (get_sort_key f) k)
         (sort_fields_reading_order fields)
  = filter (fun f => same_key key_lt (get_sort_key f) k) fields.
Proof. apply sorted_stable, key_lt_strict_weak. Qed.

Lemma py_round_comp (q q' : Q) : (q == q')%Q -> py_round q = py_round q'.
Proof.
  intros H. unfold py_round.
  rewrite (Qfloor_comp _ _ H).
  assert (E : ((q - inject_Z (Qfloor q') ?= 1 # 2)
               = (q' - inject_Z (Qfloor q') ?= 1 # 2))%Q)
    by now rewrite H.
  now rewrite E.
Qed.

Lemma snapped_row_comp (y y' : Q) :
  (y == y')%Q -> snapped_row y = snapped_row y'.
Proof.
  intros H. unfold snapped_row. f_equal. apply py_round_comp. now rewrite H.
Qed.

(** Fields with the same [y] and the same [x] have the same key. *)
Lemma same_position_same_key (f g : field_data) :
  (f_y f == f_y g)%Q -> (f_x f == f_x g)%Q ->
  same_key key_lt (get_sort_key f) (get_sort_key g) = true.
Proof.
  intros Hy Hx.
  assert (Hk : (fst (get_sort_key f) == fst (get_sort_key g))%Q).
  { unfold get_sort_key; simpl. rewrite (snapped_row_comp Hy). now rewrite Hy. }
  unfold same_key, key_lt, tuple_lt.
  assert (E1 : Qeq_bool (fst (get_sort_key f)) (fst (get_sort_key g)) = true)
    by now apply Qeq_bool_iff.
  assert (E2 : Qeq_bool (fst (get_sort_key g)) (fst (get_sort_key f)) = true)
    by (apply Qeq_bool_iff; now symmetry).
  rewrite E1, E2. simpl snd.
  apply andb_true_iff. rewrite !negb_true_iff, !Qltb_ge, Hx.
  split; apply Qle_refl.
Qed.

Lemma py_round_bounds (q : Q) :
  (inject_Z (py_round q) - (1 # 2) <= q /\
   q <= inject_Z (py_round q) + (1 # 2))%Q.
Proof.
  unfold py_round.
  pose proof (Qfloor_le q) as Hlo. pose proof (Qlt_floor q) as Hhi.
  rewrite inject_Z_plus in Hhi. change (inject_Z 1) with 1%Q in Hhi.
  destruct (q - inject_Z (Qfloor q) ?= 1 # 2)%Q eqn:E.
  - apply Qeq_alt in E. destruct (Z.even (Qfloor q)).
    + split; lra.
    + rewrite inject_Z_plus. change (inject_Z 1) with 1%Q. split; lra.
  - apply Qlt_alt in E. split; lra.
  - apply Qgt_alt in E. rewrite inject_Z_plus.
    change (inject_Z 1) with 1%Q. split; lra.
Qed.

Lemma snapped_row_bounds (y : Q) :
  (inject_Z (snapped_row y) - 5 <= y /\ y <= inject_Z (snapped_row y) + 5)%Q.
Proof.
  unfold snapped_row, ROW_TOLERANCE.
  rewrite inject_Z_mult. change (inject_Z 10) with 10%Q.
  pose proof (py_round_bounds (y / 10)) as [Hlo Hhi].
  assert (E : (y == 10 * (y / 10))%Q) by (field; discriminate).
  split; lra.
Qed.

Lemma earlier_row_smaller_key (f g : field_data) :
  (0 <= f_y f)%Q -> (0 <= f_y g)%Q ->
  (snapped_row (f_y g) < snapped_row (f_y f))%Z ->
  key_lt (get_sort_key f) (get_sort_key g) = true.
Proof.
  intros Hf Hg Hrow.
  pose proof (snapped_row_bounds (f_y f)) as [Hflo _].
  pose proof (snapped_row_bounds (f_y g)) as [_ Hghi].
  unfold key_lt, tuple_lt, get_sort_key. simpl fst. simpl snd.
  unfold snapped_row, ROW_TOLERANCE in *.
  rewrite !inject_Z_mult in *.
  change (inject_Z 10) with 10%Q in *.
  set (rf := py_round (f_y f / 10)) in *.
  set (rg := py_round (f_y g / 10)) in *.
  assert (Hg0 : (0 <= rg)%Z).
  { destruct (Z_lt_le_dec rg 0) as [Hneg|]; [|assumption]. exfalso.
    assert (Hle : (rg <= -1)%Z) by lia.
    rewrite Zle_Qle in Hle. change (inject_Z (-1)) with (-1)%Q in Hle. lra. }
  assert (Hr : (rg + 1 <= rf)%Z) by lia.
  rewrite Zle_Qle in Hr, Hg0. rewrite inject_Z_plus in Hr.
  change (inject_Z 1) with 1%Q in Hr. change (inject_Z 0) with 0%Q in Hg0.
  assert (Hlt : (inject_Z rf * 10 * - f_y f < inject_Z rg * 10 * - f_y g)%Q)
    by nra.
  destruct (Qeq_bool (inject_Z rf * 10 * - f_y f)
                     (inject_Z rg * 10 * - f_y g)) eqn:E.
  - apply Qeq_bool_iff in E. lra.
  - now apply Qltb_lt.
Qed.

(** On a page whose fields have non-negative [y], a field in a larger
    snapped row is never placed after a field in a smaller one. *)
Lemma rows_descend_when_nonneg (fields : list field_data)
    (f g : field_data) (l1 l2 l3 : list field_data) :
  Forall (fun h => 0 <= f_y h)%Q fields ->
  (snapped_row (f_y g) < snapped_row (f_y f))%Z ->
  sort_fields_reading_order fields <> l1 ++ g :: l2 ++ f :: l3.
Proof.
  intros Hnn Hrow E.
  pose proof (reading_order_sorted fields) as Hs.
  assert (Hin : forall h, In h (l1 ++ g :: l2 ++ f :: l3) -> (0 <= f_y h)%Q).
  { intros h Hh. rewrite <- E in Hh.
    apply (Permutation_in _ (reading_order_perm fields)) in Hh.
    rewrite Forall_forall in Hnn. now apply Hnn. }
  rewrite E in Hs. clear E.
  induction l1 as [|h l1 IH]; simpl in *.
  - inversion Hs as [|? ? _ Hall]; subst.
    rewrite Forall_forall in Hall.
    assert (Hgf : key_le get_sort_key key_lt g f)
      by (apply Hall, in_or_app; right; now left).
    unfold key_le in Hgf.
    rewrite earlier_row_smaller_key in Hgf; [discriminate| | |assumption].
    + apply Hin. right. apply in_or_app. right. now left.
    + apply Hin. now left.
  - inversion Hs; subst. apply IH; auto.
Qed.

(** With negative [y] the same key orders the rows the other way round:
    the row -40 comes before the row -20. *)
Example negative_rows_ascend :
  let fields :=
    page_fields 0 Samples.negative_page (widgets Samples.negative_page) in
  map (fun f => snapped_row (f_y f)) fields = [-20; -40]%Z /\
  map f_name (sort_fields_reading_order fields)
  = ["minus40"; "minus20"]%string.
Proof. vm_compute. split; reflexivity. Qed.

(** C1 (defect).  The claim: a field in an earlier snapped row precedes, and
    within one snapped row the field with the smaller [x] precedes.  On a
    page with the text fields "left" (x = 50, y = 300) and "right" (x = 200,
    y = 301), both in the snapped row 300, the sorter puts "right" first:
    the first key component [row * -y] still separates fields of one row. *)
Theorem C1_same_row_not_left_to_right :
  let fields := page_fields 0 Samples.row_page (widgets Samples.row_page) in
  map f_name fields = ["left"; "right"]%string /\
  map f_x fields = [50; 200]%Q /\
  map f_y fields = [300; 301]%Q /\
  map (fun f => snapped_row (f_y f)) fields = [300; 300]%Z /\
  map get_sort_key fields = [(-90000, 50); (-90300, 200)]%Q /\
  map f_name (sort_fields_reading_order fields) = ["right"; "left"]%string.
Proof. vm_compute. repeat split. Qed.

(** C7 (defect).  The claim: two fields with identical snapped row and
    identical [x] keep their input order.  On a page with the text fields
    "first" (x = 50, y = 300) and "second" (x = 50, y = 301), discovered in
    that order and both in the snapped row 300, the sorter puts "second"
    first: their keys [(row * -y, x)] differ, so stability does not apply. *)
Theorem C7_same_row_same_x_reordered :
  let fields :=
    page_fields 0 Samples.column_page (widgets Samples.column_page) in
  map f_name fields = ["first"; "second"]%string /\
  map f_x fields = [50; 50]%Q /\
  map (fun f => snapped_row (f_y f)) fields = [300; 300]%Z /\
  map f_name (sort_fields_reading_order fields) = ["second"; "first"]%string.
Proof. vm_compute. repeat split. Qed.

(** ** Checkbox choices *)

Lemma choice_le_off (h : string) :
  key_le choice_key choice_lt h "Off"%string -> h = "Off"%string.
Proof.
  unfold key_le, choice_key, choice_lt, tuple_lt; simpl.
  destruct (h =? "Off")%string eqn:E; simpl.
  - intros _. now apply String.eqb_eq.
  - discriminate.
Qed.

Lemma choice_le_ascending (a b : string) :
  a <> "Off"%string -> b <> "Off"%string ->
  key_le choice_key choice_lt a b -> ascending a b.
Proof.
  intros Ha Hb. apply String.eqb_neq in Ha, Hb.
  unfold key_le, choice_key, choice_lt, tuple_lt, ascending; simpl.
  rewrite Ha, Hb; simpl.
  unfold String.ltb, String.leb. rewrite (String.compare_antisym b a).
  now destruct (String.compare a b).
Qed.

(** The shape of a list sorted by [(s != "Off", s)]: the ["Off"]s, then the
    other values in ascending order. *)
Lemma choices_sorted_shape (l : list string) :
  StronglySorted (key_le choice_key choice_lt) l ->
  exists offs rest,
    l = offs ++ rest /\ Forall (eq "Off"%string) offs /\
    Forall (fun s => s <> "Off"%string) rest /\
    StronglySorted ascending rest.
Proof.
  induction 1 as [|h t Hs IH Hall].
  - exists [], []. repeat split; constructor.
  - destruct IH as (offs & rest & -> & Hoffs & Hrest & Hasc).
    destruct (string_dec h "Off"%string) as [->|Hh].
    + exists ("Off"%string :: offs), rest.
      repeat split; auto.
    + assert (Hnone : offs = []).
      { destruct offs as [|o offs]; [reflexivity|]. exfalso.
        inversion Hoffs as [|? ? Ho _]; subst.
        inversion Hall as [|? ? Hle _]; subst.
        exact (Hh (choice_le_off Hle)). }
      subst offs. simpl in *.
      exists [], (h :: rest). repeat split; auto.
      constructor; [exact Hasc|].
      rewrite Forall_forall in *. intros c Hc.
      apply choice_le_ascending; auto.
Qed.

Lemma sorted_choices_shape (l : list string) :
  exists offs rest,
    sorted choice_key choice_lt l = offs ++ rest /\
    Forall (eq "Off"%string) offs /\
    Forall (fun s => s <> "Off"%string) rest /\
    StronglySorted ascending rest.
Proof. apply choices_sorted_shape, sorted_sorted, choice_lt_strict_weak. Qed.

Lemma shape_off_first (l offs rest : list string) :
  l = offs ++ rest -> Forall (eq "Off"%string) offs ->
  Forall (fun s => s <> "Off"%string) rest ->
  In "Off"%string l -> hd_error l = Some "Off"%string.
Proof.
  intros -> Hoffs Hrest Hin.
  destruct offs as [|o offs].
  - simpl in Hin. rewrite Forall_forall in Hrest. now destruct (Hrest _ Hin).
  - inversion Hoffs; subst. reflexivity.
Qed.

Lemma choice_le_antisym (a b : string) :
  key_le choice_key choice_lt a b -> key_le choice_key choice_lt b a -> a = b.
Proof.
  unfold key_le, choice_key, choice_lt, tuple_lt; simpl.
  destruct (a =? "Off")%string eqn:Ea, (b =? "Off")%string eqn:Eb; simpl;
    try discriminate.
  - intros _ _. apply String.eqb_eq in Ea, Eb. congruence.
  - rewrite !string_ltb_ge. intros [Hba|Hab] [Hab'|Hba']; auto.
    exfalso.
    apply (String_as_OT.lt_not_eq _ _ (String_as_OT.lt_trans _ _ _ Hab Hba')).
    reflexivity.
Qed.

(** Two sorted arrangements of the same values coincide. *)
Lemma sorted_arrangement_unique (s s' : list string) :
  StronglySorted (key_le choice_key choice_lt) s ->
  StronglySorted (key_le choice_key choice_lt) s' ->
  Permutation s s' -> s = s'.
Proof.
  intros Hs. revert s'.
  induction Hs as [|a t Ht IH Ha]; intros s' Hs' Hp.
  - now apply Permutation_nil in Hp.
  - destruct Hs' as [|a' t' Ht' Ha'].
    + apply Permutation_sym, Permutation_nil in Hp. discriminate.
    + assert (E : a = a').
      { rewrite Forall_forall in Ha, Ha'.
        assert (H1 : In a (a' :: t'))
          by (apply (Permutation_in _ Hp); now left).
        assert (H2 : In a' (a :: t))
          by (apply (Permutation_in _ (Permutation_sym Hp)); now left).
        destruct H1 as [H1|H1]; [now symmetry|].
        destruct H2 as [H2|H2]; [assumption|].
        apply choice_le_antisym; auto. }
      subst a'. f_equal. apply IH; [assumption|].
      now apply Permutation_cons_inv in Hp.
Qed.

(** The order in which [list(set(...))] lists the values does not show in
    the sorted choices. *)
Lemma choices_order_irrelevant (l l' : list string) :
  Permutation l l' ->
  sorted choice_key choice_lt l = sorted choice_key choice_lt l'.
Proof.
  intros Hp. apply sorted_arrangement_unique.
  - apply sorted_sorted, choice_lt_strict_weak.
  - apply sorted_sorted, choice_lt_strict_weak.
  - rewrite !sorted_perm. exact Hp.
Qed.

Lemma order_choices_checkbox (l : list string) :
  order_choices "CheckBox" (PyList l) = PyList (sorted choice_key choice_lt l).
Proof. now destruct l. Qed.

Lemma flatten_choices_dict (d : list (string * dictval)) :
  exists raw, flatten_choices (PyDict d) = PyList raw /\ NoDup raw.
Proof.
  unfold flatten_choices.
  destruct (flatten_values d) as [|s all_choices].
  - exists []. split; [reflexivity|constructor].
  - exists (list_set (s :: all_choices)). split; [reflexivity|].
    apply NoDup_nodup.
Qed.

(** For a checkbox the list that comes out is the sorted list of the values
    that went in (made distinct when they came as a mapping). *)
Lemma normalize_checkbox_list (c : pyval) (l : list string) :
  normalize_choices "CheckBox" c = PyList l ->
  exists raw,
    l = sorted choice_key choice_lt raw /\
    match c with
    | PyList l0 => raw = l0
    | _ => NoDup raw
    end.
Proof.
  unfold normalize_choices.
  destruct c as [|l0|d].
  - discriminate.
  - cbn [flatten_choices]. rewrite order_choices_checkbox.
    intros [= <-]. now exists l0.
  - destruct (flatten_choices_dict d) as (raw & -> & Hnd).
    rewrite order_choices_checkbox. intros [= <-]. now exists raw.
Qed.









Lemma widget_field_choices (page_num : nat) (page : Page) (w : Widget)
    (fd : field_data) :
  widget_field page_num page w = Some fd ->
  field_type_string w = "CheckBox"%string ->
  f_choices fd
  = normalize_choices "CheckBox"
      (checkbox_choices w (str_or (field_value w) "")).
Proof.
  unfold widget_field. intros H Ht.
  destruct (field_name w) as [name|]; [|discriminate].
  destruct (name =? "")%string; [discriminate|].
  injection H as <-. cbn [f_choices]. now rewrite Ht.
Qed.

(** C3 (counterexample).  A checkbox whose appearance dictionary has the
    keys "Yes", "Off" in that order: the checkbox script emits
    ["Yes", "Off"], with "Off" present and not first.  A checkbox whose
    [button_states()] returns the list ["Yes", "Yes"]: the discovery script
    emits it with the duplicate. *)
Lemma C3_unsorted_and_repeated_values :
  Checkbox.e_possible_values
    (Checkbox.checkbox_entry 0 Samples.yes_off_checkbox)
    = PyList ["Yes"; "Off"]%string /\
  option_map f_choices
    (widget_field 0 (Samples.letter []) Samples.repeating_checkbox)
    = Some (PyList ["Yes"; "Yes"]%string).
Proof. split; reflexivity. Qed.

(** C3 (amended).  For every checkbox field emitted by the discovery script
    whose choices are a list: "Off" is its first element whenever it is
    present, the list consists of the "Off" entries followed by all other
    values in ascending string order, and it has no duplicates provided
    the resolved raw value was a mapping (which is flattened and made
    distinct) or a list without duplicates.  (The checkbox script emits the
    states as the engine listed them.) *)
Theorem C3_discovery_choices_ordered (page_num : nat) (page : Page)
    (w : Widget) (fd : field_data) (l : list string) :
  field_type_string w = "CheckBox"%string ->
  widget_field page_num page w = Some fd ->
  f_choices fd = PyList l ->
  (In "Off"%string l -> hd_error l = Some "Off"%string) /\
  (exists offs rest,
     l = offs ++ rest /\ Forall (eq "Off"%string) offs /\
     Forall (fun s => s <> "Off"%string) rest /\
     StronglySorted ascending rest) /\
  (match checkbox_choices w (str_or (field_value w) "") with
   | PyList raw => NoDup raw
   | _ => True
   end -> NoDup l).
Proof.
  intros Ht Hfd Hl.
  rewrite (widget_field_choices _ _ _ Hfd Ht) in Hl.
  destruct (normalize_checkbox_list _ Hl) as (raw & -> & Hraw).
  destruct (sorted_choices_shape raw) as (offs & rest & E & Ho & Hr & Ha).
  split; [|split].
  - now apply (shape_off_first E).
  - now exists offs, rest.
  - intros Hnd.
    apply (Permutation_NoDup (Permutation_sym (sorted_perm _ _ raw))).
    destruct (checkbox_choices w (str_or (field_value w) ""));
      try exact Hraw. now subst.
Qed.

Lemma C3_discovery_choices_ordered_witness :
  exists fd,
    widget_field 0 (Samples.letter []) Samples.yes_off_checkbox = Some fd /\
    f_choices fd = PyList ["Off"; "Yes"]%string /\
    hd_error ["Off"; "Yes"]%string = Some "Off"%string /\
    NoDup ["Off"; "Yes"]%string.
Proof.
  eexists. split; [reflexivity|]. split; [reflexivity|].
  destruct (C3_discovery_choices_ordered 0 (Samples.letter [])
              Samples.yes_off_checkbox eq_refl eq_refl eq_refl)
    as (Hhd & _ & Hnd).
  split.
  - apply Hhd. now left.
  - apply Hnd. simpl.
    repeat constructor; simpl; intuition discriminate.
Defined.

Lemma order_choices_list (ft : string) (l : list string) :
  order_choices ft (PyList l)
  = PyList (if (ft =? "CheckBox")%string
            then sorted choice_key choice_lt l else l).
Proof.
  unfold order_choices. now destruct (ft =? "CheckBox")%string, l.
Qed.

Lemma normalize_choices_list (ft : string) (l : list string) :
  normalize_choices ft (PyList l)
  = PyList (if (ft =? "CheckBox")%string
            then sorted choice_key choice_lt l else l).
Proof. apply order_choices_list. Qed.

(** C8.  The normalization step (flatten a mapping of lists, make the values
    distinct, sort with "Off" first and the rest ascending) is idempotent:
    applied to its own result it returns that result. *)
Theorem C8_normalize_idempotent (ft : string) (c : pyval) :
  normalize_choices ft (normalize_choices ft c) = normalize_choices ft c.
Proof.
  assert (Hlist : forall l,
             normalize_choices ft (normalize_choices ft (PyList l))
             = normalize_choices ft (PyList l)).
  { intros l. rewrite !normalize_choices_list.
    destruct (ft =? "CheckBox")%string; [|reflexivity].
    now rewrite (sorted_idempotent choice_key choice_lt_strict_weak). }
  destruct c as [|l|d].
  - unfold normalize_choices, order_choices; simpl.
    now destruct (ft =? "CheckBox")%string.
  - apply Hlist.
  - destruct (flatten_choices_dict d) as (raw & E & _).
    unfold normalize_choices at 2 3. rewrite E.
    apply (Hlist raw).
Qed.

(** ** Field discovery: names and ids *)

Lemma enumerate_fst (A : Type) (l : list A) (start : nat) :
  map fst (enumerate l start) = seq start (List.length l).
Proof.
  revert start. induction l as [|a l IH]; intros start; simpl;
    [reflexivity|now rewrite IH].
Qed.

Lemma enumerate_snd (A : Type) (l : list A) (start : nat) :
  map snd (enumerate l start) = l.
Proof.
  revert start. induction l as [|a l IH]; intros start; simpl;
    [reflexivity|now rewrite IH].
Qed.

Lemma assign_ids_id (all_fields : list field_data) :
  map id (assign_ids all_fields) = seq 1 (List.length all_fields).
Proof.
  unfold assign_ids. rewrite map_map. simpl.
  apply (enumerate_fst all_fields 1).
Qed.

Lemma assign_ids_data (all_fields : list field_data) :
  map data (assign_ids all_fields) = all_fields.
Proof.
  unfold assign_ids. rewrite map_map. simpl.
  apply (enumerate_snd all_fields 1).
Qed.

Lemma widget_field_unnamed (page_num : nat) (page : Page) (w : Widget) :
  named w = false -> widget_field page_num page w = None.
Proof.
  unfold named, truthy_str, widget_field.
  destruct (field_name w) as [name|]; [|reflexivity].
  destruct (name =? "")%string; [reflexivity|discriminate].
Qed.

Lemma widget_field_named (page_num : nat) (page : Page) (w : Widget) :
  named w = true ->
  exists fd, widget_field page_num page w = Some fd
             /\ f_name fd <> ""%string
             /\ Some (f_name fd) = field_name w.
Proof.
  unfold named, truthy_str, widget_field.
  destruct (field_name w) as [name|]; [|discriminate].
  destruct (name =? "")%string eqn:E; [discriminate|]. intros _.
  eexists. split; [reflexivity|]. split; [|reflexivity].
  simpl. now apply String.eqb_neq.
Qed.

Lemma page_fields_length (page_num : nat) (page : Page) (ws : list Widget) :
  List.length (page_fields page_num page ws) = List.length (filter named ws).
Proof.
  induction ws as [|w ws IH]; [reflexivity|]. simpl.
  destruct (named w) eqn:E.
  - destruct (widget_field_named page_num page w E) as (fd & -> & _).
    simpl. now rewrite IH.
  - now rewrite (widget_field_unnamed page_num page w E).
Qed.

Lemma page_fields_names (page_num : nat) (page : Page) (ws : list Widget) :
  Forall (fun fd => f_name fd <> ""%string) (page_fields page_num page ws).
Proof.
  induction ws as [|w ws IH]; [constructor|]. simpl.
  destruct (named w) eqn:E.
  - destruct (widget_field_named page_num page w E) as (fd & -> & Hn & _).
    now constructor.
  - now rewrite (widget_field_unnamed page_num page w E).
Qed.

Lemma collect_length (target_page : option Z) (pages : list Page)
    (page_num : nat) :
  List.length (collect target_page page_num pages)
  = discovered_count target_page page_num pages.
Proof.
  revert page_num. induction pages as [|page pages IH]; intros page_num;
    [reflexivity|]. simpl.
  destruct (skipped target_page page_num); [now rewrite IH|].
  rewrite length_app, IH. f_equal.
  unfold sort_fields_reading_order.
  now rewrite sorted_length, page_fields_length.
Qed.

Lemma collect_names (target_page : option Z) (pages : list Page)
    (page_num : nat) :
  Forall (fun fd => f_name fd <> ""%string)
         (collect target_page page_num pages).
Proof.
  revert page_num. induction pages as [|page pages IH]; intros page_num;
    [constructor|]. simpl.
  destruct (skipped target_page page_num); [apply IH|].
  apply Forall_app. split; [|apply IH].
  apply (Permutation_Forall
           (Permutation_sym (reading_order_perm _))).
  apply page_fields_names.
Qed.

(** C4.  When the document opens, the ids of the emitted fields are exactly
    1, 2, ..., N in output order, where N is the number of named widgets on
    the processed pages, and the output is the page-by-page reading-order
    sequence. *)
Theorem C4_ids_contiguous (fitz_open : list Byte.byte -> Probe Document)
    (pdf_data : list Byte.byte) (target_page : option Z) (doc : Document) :
  fitz_open pdf_data = Returns doc ->
  let out := discover_all_pdf_fields fitz_open pdf_data target_page in
  let N := discovered_count target_page 0 doc in
  map id out = seq 1 N /\
  List.length out = N /\
  map data out = collect target_page 0 doc.
Proof.
  intros Hopen. unfold discover_all_pdf_fields. rewrite Hopen. simpl.
  rewrite assign_ids_id, assign_ids_data, collect_length.
  repeat split.
  rewrite <- (length_map id), assign_ids_id, length_seq.
  apply collect_length.
Qed.

Lemma C4_ids_contiguous_witness :
  map id (discover_all_pdf_fields (Samples.opens Samples.form_doc)
            Samples.good_bytes None) = [1; 2; 3; 4; 5]%nat.
Proof.
  exact (proj1 (C4_ids_contiguous (Samples.opens Samples.form_doc)
                  Samples.good_bytes None eq_refl)).
Defined.

(** C9.  Every record emitted by field discovery has a non-empty name; a
    widget whose name is absent or empty yields no record, so a page
    contributes exactly as many records as it has named widgets. *)
Theorem C9_emitted_names_nonempty
    (fitz_open : list Byte.byte -> Probe Document)
    (pdf_data : list Byte.byte) (target_page : option Z) :
  Forall (fun ff => f_name (data ff) <> ""%string)
         (discover_all_pdf_fields fitz_open pdf_data target_page) /\
  (forall page_num page w,
     named w = false -> widget_field page_num page w = None) /\
  (forall page_num page ws,
     List.length (page_fields page_num page ws)
     = List.length (filter named ws)).
Proof.
  split; [|split].
  - unfold discover_all_pdf_fields.
    destruct (fitz_open pdf_data) as [|doc]; simpl; [constructor|].
    pose proof (collect_names target_page doc 0) as H.
    rewrite <- (assign_ids_data (collect target_page 0 doc)) in H.
    now rewrite Forall_map in H.
  - apply widget_field_unnamed.
  - apply page_fields_length.
Qed.

Lemma C9_emitted_names_nonempty_witness :
  widget_field 1 (Samples.letter []) Samples.unnamed_widget = None /\
  map (fun ff => f_name (data ff))
      (discover_all_pdf_fields (Samples.opens Samples.form_doc)
         Samples.good_bytes (Some 2%Z)) = ["agree"%string].
Proof.
  split; [|reflexivity].
  exact (proj1 (proj2 (C9_emitted_names_nonempty
                         (Samples.opens Samples.form_doc)
                         Samples.good_bytes None))
               1%nat (Samples.letter []) Samples.unnamed_widget eq_refl).
Defined.

(** ** Failure to open the document *)

(** C5.  When opening the document fails, every utility still produces its
    neutral result: field discovery and image conversion an empty array,
    the checkbox utility an empty object, and the filling utility the
    unmodified input bytes. *)
Theorem C5_open_failure_neutral
    (fitz_open : list Byte.byte -> Probe Document)
    (b64encode : list Byte.byte -> string)
    (tobytes : Document -> Probe (list Byte.byte))
    (pdf_data : list Byte.byte) (page_arg : option Z)
    (argv : list Images.cli_arg) (field_values : list (string * string)) :
  fitz_open pdf_data = Raises ->
  Discover.main fitz_open pdf_data page_arg = [] /\
  snd (Images.main fitz_open b64encode pdf_data argv) = [] /\
  Checkbox.main fitz_open pdf_data = [] /\
  Fill.main fitz_open tobytes pdf_data field_values = pdf_data.
Proof.
  intros Hopen.
  unfold Discover.main, discover_all_pdf_fields, Images.main,
    Images.pdf_to_images_for_ai, Checkbox.main,
    Checkbox.get_checkbox_export_values, Fill.main,
    Fill.fill_pdf_form_with_fitz_v2.
  rewrite Hopen. simpl. repeat split.
Qed.

Lemma C5_open_failure_neutral_witness :
  Discover.main (Samples.opens Samples.form_doc) Samples.bad_bytes None = [] /\
  snd (Images.main (Samples.opens Samples.form_doc) Samples.encode
         Samples.bad_bytes [Images.ArgInt 1]) = [] /\
  Checkbox.main (Samples.opens Samples.form_doc) Samples.bad_bytes = [] /\
  Fill.main (Samples.opens Samples.form_doc) Samples.serialize
    Samples.bad_bytes [("left", "Jane")]%string = Samples.bad_bytes.
Proof.
  exact (C5_open_failure_neutral (Samples.opens Samples.form_doc)
           Samples.encode Samples.serialize Samples.bad_bytes None
           [Images.ArgInt 1] [("left", "Jane")]%string eq_refl).
Defined.

(** ** Page-to-image conversion *)

Import Images.

(** C6.  A document with more pages than the ceiling (100) is rejected
    before the conversion loop: the result is empty and no page is
    rendered, whatever pages were requested. *)
Theorem C6_page_ceiling (fitz_open : list Byte.byte -> Probe Document)
    (b64encode : list Byte.byte -> string) (pdf_data : list Byte.byte)
    (requested : option (list Z)) (max_pages : Z) (doc : Document) :
  fitz_open pdf_data = Returns doc ->
  (MAX_TOTAL_PAGES < Z.of_nat (List.length doc))%Z ->
  pdf_to_images_for_ai fitz_open b64encode pdf_data requested max_pages
  = ([], []).
Proof.
  intros Hopen Hbig. unfold pdf_to_images_for_ai. rewrite Hopen.
  apply Z.ltb_lt in Hbig. now rewrite Hbig.
Qed.

Lemma C6_page_ceiling_witness :
  pdf_to_images_for_ai (Samples.opens Samples.long_doc) Samples.encode
    Samples.good_bytes (Some [0; 1; 149]%Z) 50 = ([], []).
Proof.
  apply (C6_page_ceiling (Samples.opens Samples.long_doc) Samples.encode
           Samples.good_bytes (Some [0; 1; 149]%Z) 50
           (doc := Samples.long_doc) eq_refl).
  vm_compute. reflexivity.
Defined.

Lemma Forall_firstn (A : Type) (P : A -> Prop) (n : nat) (l : list A) :
  Forall P l -> Forall P (firstn n l).
Proof.
  intros H. revert n. induction H as [|a l Ha _ IH]; intros [|n]; simpl;
    constructor; auto.
Qed.

Lemma range_bounds (n : Z) : Forall (fun p => 0 <= p < n)%Z (range n).
Proof.
  unfold range. apply Forall_forall. intros p Hp.
  apply in_map_iff in Hp. destruct Hp as (k & <- & Hk).
  apply in_seq in Hk. lia.
Qed.

Lemma parse_arg_nonneg (st : cli_state) (arg : cli_arg) :
  (forall ps, pages st = Some ps -> Forall (fun p => 0 <= p)%Z ps) ->
  forall ps, pages (parse_arg st arg) = Some ps ->
             Forall (fun p => 0 <= p)%Z ps.
Proof.
  intros Hst ps. destruct arg as [|dir|js|n|]; simpl; auto.
  - destruct (no_pages st); simpl; auto.
    intros [= <-]. apply Forall_forall. intros p Hp.
    apply in_map_iff in Hp. destruct Hp as (q & <- & Hq).
    apply filter_In in Hq. destruct Hq as [_ Hq].
    apply Z.ltb_lt in Hq. lia.
  - destruct (no_pages st && (0 <? n)%Z) eqn:E; simpl; auto.
    intros [= <-]. apply andb_true_iff in E. destruct E as [_ E].
    apply Z.ltb_lt in E. constructor; [lia|constructor].
Qed.

Lemma parse_args_nonneg (argv : list cli_arg) (ps : list Z) :
  pages (parse_args argv) = Some ps -> Forall (fun p => 0 <= p)%Z ps.
Proof.
  unfold parse_args.
  assert (H : forall st,
             (forall ps, pages st = Some ps -> Forall (fun p => 0 <= p)%Z ps) ->
             forall ps, pages (fold_left parse_arg argv st) = Some ps ->
                        Forall (fun p => 0 <= p)%Z ps).
  { induction argv as [|arg argv IH]; intros st Hst; simpl; [exact Hst|].
    apply IH. now apply parse_arg_nonneg. }
  apply H. simpl. discriminate.
Qed.

Section Conversion.
Variable b64encode : list Byte.byte -> string.
Variable doc : Document.
Variable total_pages : Z.

(** Page numbers at or beyond the page count are passed over. *)
Lemma convert_pages_skips (page_numbers : list Z) :
  convert_pages b64encode doc total_pages page_numbers
  = convert_pages b64encode doc total_pages
      (filter (fun p => p <? total_pages)%Z page_numbers).
Proof.
  induction page_numbers as [|p rest IH]; [reflexivity|].
  simpl. rewrite (Z.leb_antisym p total_pages).
  destruct (p <? total_pages)%Z eqn:E; simpl; [|exact IH].
  rewrite (Z.leb_antisym p total_pages), E; simpl.
  destruct (getitem doc p) as [|page]; [reflexivity|].
  destruct (get_pixmap page) as [|pix]; [reflexivity|].
  now rewrite IH.
Qed.

Lemma convert_pages_bounds (page_numbers : list Z) :
  Forall (fun p => 0 <= p)%Z page_numbers ->
  forall calls images,
    convert_pages b64encode doc total_pages page_numbers
    = (calls, Returns images) ->
    Forall (fun img => 1 <= i_page img <= total_pages)%Z images.
Proof.
  induction 1 as [|p rest Hp _ IH]; intros calls images; simpl.
  - intros [= _ <-]. constructor.
  - destruct (total_pages <=? p)%Z eqn:E; [apply IH|].
    apply Z.leb_gt in E.
    destruct (getitem doc p) as [|page]; [discriminate|].
    destruct (get_pixmap page) as [|pix]; [discriminate|].
    destruct (convert_pages b64encode doc total_pages rest)
      as [calls' [|images']]; simpl; [discriminate|].
    intros [= _ <-]. constructor; [simpl; lia|].
    now apply (IH calls').
Qed.
End Conversion.

(** C10.  When the document opens: the page list taken from the command
    line holds no negative index (non-positive page numbers are filtered
    out before conversion); requested indices at or beyond the page count
    are passed over by the loop as if they had not been requested; and
    every emitted image record has a page number between 1 and the page
    count. *)
Theorem C10_emitted_pages_in_range
    (fitz_open : list Byte.byte -> Probe Document)
    (b64encode : list Byte.byte -> string) (pdf_data : list Byte.byte)
    (argv : list cli_arg) (doc : Document) :
  fitz_open pdf_data = Returns doc ->
  let total_pages := Z.of_nat (List.length doc) in
  (forall ps, pages (parse_args argv) = Some ps ->
              Forall (fun p => 0 <= p)%Z ps) /\
  (forall page_numbers,
     convert_pages b64encode doc total_pages page_numbers
     = convert_pages b64encode doc total_pages
         (filter (fun p => p <? total_pages)%Z page_numbers)) /\
  Forall (fun img => 1 <= i_page img <= total_pages)%Z
         (snd (main fitz_open b64encode pdf_data argv)).
Proof.
  intros Hopen total_pages.
  split; [apply parse_args_nonneg|].
  split; [apply convert_pages_skips|].
  unfold main, pdf_to_images_for_ai. rewrite Hopen. fold total_pages.
  destruct (MAX_TOTAL_PAGES <? total_pages)%Z; [constructor|].
  set (page_numbers :=
         match pages (parse_args argv) with
         | Some (p :: ps) => take DEFAULT_MAX_PAGES (p :: ps)
         | _ => range (Z.min total_pages DEFAULT_MAX_PAGES)
         end).
  assert (Hnn : Forall (fun p => 0 <= p)%Z page_numbers).
  { subst page_numbers.
    pose proof (parse_args_nonneg argv) as Hargs.
    destruct (pages (parse_args argv)) as [[|p ps]|].
    - eapply Forall_impl; [|apply range_bounds]. simpl. lia.
    - apply Forall_firstn. now apply Hargs.
    - eapply Forall_impl; [|apply range_bounds]. simpl. lia. }
  destruct (convert_pages b64encode doc total_pages page_numbers)
    as [calls [|images]] eqn:E; simpl; [constructor|].
  exact (convert_pages_bounds b64encode doc total_pages Hnn E).
Qed.

Lemma C10_emitted_pages_in_range_witness :
  map i_page
      (snd (main (Samples.opens Samples.form_doc) Samples.encode
              Samples.good_bytes [ArgJsonPages [0; 3; 7; -2; 1]%Z]))
  = [3; 1]%Z /\
  Forall (fun img => 1 <= i_page img <= 3)%Z
         (snd (main (Samples.opens Samples.form_doc) Samples.encode
                 Samples.good_bytes [ArgJsonPages [0; 3; 7; -2; 1]%Z])).
Proof.
  split; [reflexivity|].
  exact (proj2 (proj2 (C10_emitted_pages_in_range
                         (Samples.opens Samples.form_doc) Samples.encode
                         Samples.good_bytes [ArgJsonPages [0; 3; 7; -2; 1]%Z]
                         eq_refl))).
Defined.

(** ** Further properties of the reading-order sorter *)

Lemma filter_narrow (A : Type) (P Q : A -> bool) (l : list A) :
  (forall a, P a = true -> Q a = true) ->
  filter P (filter Q l) = filter P l.
Proof.
  intros H. induction l as [|a l IH]; [reflexivity|]. simpl.
  destruct (Q a) eqn:EQ; simpl.
  - now rewrite IH.
  - destruct (P a) eqn:EP; [|exact IH].
    rewrite (H a EP) in EQ. discriminate.
Qed.

Lemma same_position_key (f0 f : field_data) :
  same_position f0 f = true ->
  same_key key_lt (get_sort_key f) (get_sort_key f0) = true.
Proof.
  unfold same_position. rewrite andb_true_iff, !Qeq_bool_iff.
  intros [Hy Hx]. now apply same_position_same_key.
Qed.

(** X1.  The sorter returns a rearrangement of its input: no field is
    added, dropped or repeated, and the length is kept. *)
Theorem X1_reading_order_rearranges (fields : list field_data) :
  Permutation (sort_fields_reading_order fields) fields /\
  List.length (sort_fields_reading_order fields) = List.length fields.
Proof.
  split; [apply reading_order_perm|].
  apply Permutation_length, reading_order_perm.
Qed.

(** X2.  The output is ordered by the key [(row * -y, x)]: no field has a
    key strictly smaller than the key of a field placed before it. *)
Theorem X2_reading_order_keys_ascend (fields : list field_data) :
  StronglySorted
    (fun f g => key_lt (get_sort_key g) (get_sort_key f) = false)
    (sort_fields_reading_order fields).
Proof. apply (sorted_sorted get_sort_key key_lt_strict_weak). Qed.

(** X3.  Stability: the fields that share their [y] and their [x] with a
    given field come out in the order they came in. *)
Theorem X3_same_position_keeps_order (f0 : field_data)
    (fields : list field_data) :
  filter (same_position f0) (sort_fields_reading_order fields)
  = filter (same_position f0) fields.
Proof.
  rewrite <- (filter_narrow (same_position f0)
                (fun f => same_key key_lt (get_sort_key f) (get_sort_key f0))
                (sort_fields_reading_order fields) (same_position_key f0)).
  rewrite (sorted_stable get_sort_key key_lt_strict_weak).
  apply filter_narrow, same_position_key.
Qed.

(** X4.  When no field of the page has a negative [y], a field in a larger
    snapped row is never placed after a field in a smaller one. *)
Theorem X4_rows_descend_nonneg (fields : list field_data)
    (f g : field_data) (l1 l2 l3 : list field_data) :
  Forall (fun h => 0 <= f_y h)%Q fields ->
  (snapped_row (f_y g) < snapped_row (f_y f))%Z ->
  sort_fields_reading_order fields <> l1 ++ g :: l2 ++ f :: l3.
Proof.
  apply rows_descend_when_nonneg.
Qed.

Lemma X4_rows_descend_nonneg_witness :
  sort_fields_reading_order [Samples2.field_D; Samples2.field_C]
  <> [] ++ Samples2.field_D :: [] ++ Samples2.field_C :: [].
Proof.
  apply X4_rows_descend_nonneg.
  - repeat apply Forall_cons; [| |apply Forall_nil];
      unfold Qle; simpl; lia.
  - reflexivity.
Defined.

(** X5.  Sorting a list that the sorter produced changes nothing. *)
Theorem X5_reading_order_idempotent (fields : list field_data) :
  sort_fields_reading_order (sort_fields_reading_order fields)
  = sort_fields_reading_order fields.
Proof. apply (sorted_idempotent get_sort_key key_lt_strict_weak). Qed.

(** ** Further properties of field discovery *)

Lemma widget_field_page (page_num : nat) (page : Page) (w : Widget)
    (fd : field_data) :
  widget_field page_num page w = Some fd -> f_page fd = (page_num + 1)%nat.
Proof.
  unfold widget_field.
  destruct (field_name w) as [name|]; [|discriminate].
  destruct (name =? "")%string; [discriminate|].
  now intros [= <-].
Qed.

Lemma page_fields_page (page_num : nat) (page : Page) (ws : list Widget) :
  Forall (fun fd => f_page fd = (page_num + 1)%nat)
         (page_fields page_num page ws).
Proof.
  induction ws as [|w ws IH]; [constructor|]. simpl.
  destruct (widget_field page_num page w) as [fd|] eqn:E; [|exact IH].
  constructor; [now apply (widget_field_page _ _ _ E)|exact IH].
Qed.

Lemma collect_pages (target_page : option Z) (pages : list Page)
    (page_num : nat) :
  Forall (fun fd => (page_num < f_page fd <= page_num + List.length pages
                     /\ skipped target_page (f_page fd - 1) = false)%nat)
         (collect target_page page_num pages).
Proof.
  revert page_num. induction pages as [|page pages IH]; intros page_num;
    [constructor|]. simpl.
  assert (Hrest : Forall
            (fun fd => (page_num < f_page fd
                          <= page_num + S (List.length pages)
                        /\ skipped target_page (f_page fd - 1) = false)%nat)
            (collect target_page (S page_num) pages)).
  { eapply Forall_impl; [|apply (IH (S page_num))]. simpl.
    intros fd [Hb Hsk]. split; [lia|exact Hsk]. }
  destruct (skipped target_page page_num) eqn:Esk; [exact Hrest|].
  apply Forall_app. split; [|exact Hrest].
  apply (Permutation_Forall (Permutation_sym (reading_order_perm _))).
  eapply Forall_impl; [|apply page_fields_page]. simpl.
  intros fd ->. replace (page_num + 1 - 1)%nat with page_num by lia.
  split; [lia|exact Esk].
Qed.

(** X6.  When the document opens, every emitted field carries a page number
    between 1 and the page count, and the requested page number when one
    was given. *)
Theorem X6_emitted_pages (fitz_open : list Byte.byte -> Probe Document)
    (pdf_data : list Byte.byte) (target_page : option Z) (doc : Document) :
  fitz_open pdf_data = Returns doc ->
  Forall (fun ff =>
            (1 <= f_page (data ff) <= List.length doc)%nat /\
            match target_page with
            | Some t => Z.of_nat (f_page (data ff)) = t
            | None => True
            end)
         (discover_all_pdf_fields fitz_open pdf_data target_page).
Proof.
  intros Hopen. unfold discover_all_pdf_fields. rewrite Hopen. simpl.
  pose proof (collect_pages target_page doc 0) as H.
  rewrite <- (assign_ids_data (collect target_page 0 doc)) in H.
  rewrite Forall_map in H.
  eapply Forall_impl; [|exact H]. simpl. intros ff [Hb Hsk].
  split; [lia|].
  destruct target_page as [t|]; [|exact I].
  unfold skipped in Hsk. apply negb_false_iff, Z.eqb_eq in Hsk.
  rewrite <- Hsk. f_equal. lia.
Qed.

Lemma X6_emitted_pages_witness :
  Forall (fun ff =>
            (1 <= f_page (data ff) <= 3)%nat /\
            Z.of_nat (f_page (data ff)) = 3%Z)
         (discover_all_pdf_fields (Samples.opens Samples.form_doc)
            Samples.good_bytes (Some 3%Z)).
Proof.
  exact (X6_emitted_pages (Samples.opens Samples.form_doc)
           Samples.good_bytes (Some 3%Z) eq_refl).
Defined.

Lemma StronglySorted_app (A : Type) (R : A -> A -> Prop) (l1 l2 : list A) :
  StronglySorted R l1 -> StronglySorted R l2 ->
  (forall a b, In a l1 -> In b l2 -> R a b) ->
  StronglySorted R (l1 ++ l2).
Proof.
  intros H1 H2 H. induction H1 as [|a l1 Hs IH Ha]; [exact H2|]. simpl.
  constructor.
  - apply IH. intros x y Hx. apply H. now right.
  - apply Forall_app. split; [exact Ha|].
    apply Forall_forall. intros b Hb. apply H; [now left|exact Hb].
Qed.

Lemma constant_sorted (n : nat) (l : list nat) :
  Forall (fun m => m = n) l -> StronglySorted le l.
Proof.
  induction 1 as [|m l Hm Hl IH]; constructor; [exact IH|].
  subst m. eapply Forall_impl; [|exact Hl]. simpl. intros k ->. lia.
Qed.

Lemma collect_pages_ascend (target_page : option Z) (pages : list Page)
    (page_num : nat) :
  StronglySorted le (map f_page (collect target_page page_num pages)).
Proof.
  revert page_num. induction pages as [|page pages IH]; intros page_num;
    [constructor|]. simpl.
  destruct (skipped target_page page_num); [apply IH|].
  rewrite map_app.
  assert (Hhere : Forall (fun m => m = (page_num + 1)%nat)
                    (map f_page
                       (sort_fields_reading_order
                          (page_fields page_num page (widgets page))))).
  { rewrite Forall_map.
    apply (Permutation_Forall (Permutation_sym (reading_order_perm _))).
    apply page_fields_page. }
  apply StronglySorted_app; [now apply (constant_sorted Hhere)|apply IH|].
  intros a b Ha Hb.
  rewrite Forall_forall in Hhere. rewrite (Hhere a Ha).
  apply in_map_iff in Hb. destruct Hb as (fd & <- & Hfd).
  pose proof (collect_pages target_page pages (S page_num)) as Hp.
  rewrite Forall_forall in Hp. destruct (Hp fd Hfd) as [Hlt _]. lia.
Qed.

(** X7.  The output lists the fields page by page: the page numbers of the
    emitted fields never decrease along the output. *)
Theorem X7_pages_ascend (fitz_open : list Byte.byte -> Probe Document)
    (pdf_data : list Byte.byte) (target_page : option Z) :
  StronglySorted le
    (map (fun ff => f_page (data ff))
         (discover_all_pdf_fields fitz_open pdf_data target_page)).
Proof.
  unfold discover_all_pdf_fields.
  destruct (fitz_open pdf_data) as [|doc]; simpl; [constructor|].
  rewrite <- (map_map data f_page), assign_ids_data.
  apply collect_pages_ascend.
Qed.

Lemma collect_outside (t : Z) (pages : list Page) (page_num : nat) :
  (t <= Z.of_nat page_num \/ Z.of_nat (page_num + List.length pages) < t)%Z ->
  collect (Some t) page_num pages = [].
Proof.
  revert page_num. induction pages as [|page pages IH]; intros page_num Ht;
    [reflexivity|]. simpl in *.
  assert (E : (Z.of_nat (page_num + 1) =? t)%Z = false)
    by (apply Z.eqb_neq; lia).
  rewrite E. simpl. apply IH. lia.
Qed.

(** X8.  A requested page number that is not a page of the document (zero,
    negative, or beyond the last page) yields an empty result. *)
Theorem X8_target_outside_document
    (fitz_open : list Byte.byte -> Probe Document)
    (pdf_data : list Byte.byte) (t : Z) (doc : Document) :
  fitz_open pdf_data = Returns doc ->
  (t <= 0 \/ Z.of_nat (List.length doc) < t)%Z ->
  discover_all_pdf_fields fitz_open pdf_data (Some t) = [].
Proof.
  intros Hopen Ht. unfold discover_all_pdf_fields. rewrite Hopen. simpl.
  now rewrite collect_outside.
Qed.

Lemma X8_target_outside_document_witness :
  discover_all_pdf_fields (Samples.opens Samples.form_doc)
    Samples.good_bytes (Some 4%Z) = [].
Proof.
  apply (X8_target_outside_document (Samples.opens Samples.form_doc)
           Samples.good_bytes (t := 4%Z) (doc := Samples.form_doc) eq_refl).
  right. reflexivity.
Defined.

(** X9.  A field that is not a checkbox is emitted with empty choices, and
    the emitted annotation type is "/Btn" exactly for checkboxes, "/Sig"
    exactly for signatures and "/Tx" for everything else. *)
Theorem X9_choices_only_for_checkboxes (page_num : nat) (page : Page)
    (w : Widget) (fd : field_data) :
  widget_field page_num page w = Some fd ->
  f_field_type fd = field_type_string w /\
  (f_field_type fd <> "CheckBox"%string -> f_choices fd = PyList []) /\
  (f_type fd = "/Btn"%string <-> f_field_type fd = "CheckBox"%string) /\
  (f_type fd = "/Sig"%string <-> f_field_type fd = "Signature"%string) /\
  (f_type fd = "/Tx"%string <->
   f_field_type fd <> "CheckBox"%string /\
   f_field_type fd <> "Signature"%string).
Proof.
  unfold widget_field.
  destruct (field_name w) as [name|]; [|discriminate].
  destruct (name =? "")%string; [discriminate|].
  intros [= <-]. simpl. unfold pdf_type_of.
  split; [reflexivity|].
  destruct (field_type_string w =? "CheckBox")%string eqn:Ec.
  - apply String.eqb_eq in Ec. rewrite Ec. simpl.
    repeat split; try congruence; try discriminate.
    intros [H _]. congruence.
  - apply String.eqb_neq in Ec.
    destruct (field_type_string w =? "Signature")%string eqn:Es.
    + apply String.eqb_eq in Es.
      repeat split; try congruence; try discriminate.
      * intros _. unfold normalize_choices, order_choices; simpl.
        rewrite Es. reflexivity.
      * intros [_ H]. congruence.
    + apply String.eqb_neq in Es.
      repeat split; try congruence; try discriminate.
      intros _. unfold normalize_choices, order_choices; simpl.
      apply String.eqb_neq in Ec. now rewrite Ec.
Qed.

Lemma X9_choices_only_for_checkboxes_witness :
  exists fd,
    widget_field 0 Samples.row_page Samples.left_widget = Some fd /\
    f_choices fd = PyList [] /\ f_type fd = "/Tx"%string.
Proof.
  eexists. split; [reflexivity|].
  destruct (X9_choices_only_for_checkboxes 0 Samples.row_page
              Samples.left_widget eq_refl) as (_ & Hc & _ & _ & Ht).
  split.
  - apply Hc. discriminate.
  - apply Ht. split; discriminate.
Defined.

(** X10.  The first strategy that finds something decides: a non-empty
    result of [button_states()] is the checkbox's raw choices whatever the
    appearance dictionaries hold, and when [button_states()] finds nothing,
    a non-empty key list of the annotation's normal appearance is, whatever
    [_get_widget()] does. *)
Theorem X10_first_strategy_wins (w : Widget) (cv : string) :
  (forall c,
     button_states w = Some (Returns c) -> truthy c = true ->
     checkbox_choices w cv = c) /\
  (forall c annot k ks,
     try_button_states w = Returns c -> truthy c = false ->
     _annot w = Some (Some annot) ->
     annot_get_AP annot
     = Returns (Some {| ap_N := Some (WithKeys (k :: ks)) |}) ->
     checkbox_choices w cv = PyList (k :: ks)).
Proof.
  split.
  - intros c Hbs Hc.
    unfold checkbox_choices, try_button_states, try_annot, try_widget_obj.
    rewrite Hbs. simpl. rewrite Hc. simpl. now rewrite Hc.
  - intros c annot k ks Hbs Hc Ha Hap.
    unfold checkbox_choices. rewrite Hbs. simpl.
    unfold try_annot. rewrite Hc, Ha, Hap. simpl. reflexivity.
Qed.

Lemma X10_first_strategy_wins_witness :
  checkbox_choices Samples2.both_checkbox "Yes"%string
  = PyList ["Off"; "1"]%string /\
  checkbox_choices Samples.yes_off_checkbox "Yes"%string
  = PyList ["Yes"; "Off"]%string.
Proof.
  split.
  - apply (proj1 (X10_first_strategy_wins Samples2.both_checkbox
                    "Yes"%string)); reflexivity.
  - apply (proj2 (X10_first_strategy_wins Samples.yes_off_checkbox
                    "Yes"%string) (PyList []) Samples.yes_off_annot);
      reflexivity.
Defined.

(** X11.  Normalizing a checkbox's choices neither invents nor loses a
    value: the resulting list holds exactly the values of the raw list, or
    of the lists stored in the raw mapping. *)
Theorem X11_normalize_keeps_values (c : pyval) (l : list string) :
  normalize_choices "CheckBox" c = PyList l ->
  forall s, In s l <-> In s (raw_values c).
Proof.
  unfold normalize_choices. intros H s.
  destruct c as [|l0|d].
  - discriminate.
  - cbn [flatten_choices] in H. rewrite order_choices_checkbox in H.
    injection H as <-. apply sorted_In.
  - unfold flatten_choices in H. simpl raw_values.
    destruct (flatten_values d) as [|v all_choices].
    + rewrite order_choices_checkbox in H. now injection H as <-.
    + rewrite order_choices_checkbox in H. injection H as <-.
      rewrite sorted_In.
      exact (nodup_In string_dec (v :: all_choices) s).
Qed.

Lemma X11_normalize_keeps_values_witness :
  In "Yes"%string ["Off"; "Yes"]%string <->
  In "Yes"%string (raw_values Samples.grouped_states).
Proof.
  exact (X11_normalize_keeps_values Samples.grouped_states eq_refl
           "Yes"%string).
Defined.

(** X12.  The normalized choices of a checkbox depend only on which values
    are listed and how often, not on the order in which they are listed. *)
Theorem X12_listing_order_irrelevant (l l' : list string) :
  Permutation l l' ->
  normalize_choices "CheckBox" (PyList l)
  = normalize_choices "CheckBox" (PyList l').
Proof.
  intros Hp. unfold normalize_choices. cbn [flatten_choices].
  rewrite !order_choices_checkbox. f_equal.
  now apply choices_order_irrelevant.
Qed.

Lemma X12_listing_order_irrelevant_witness :
  normalize_choices "CheckBox" (PyList ["Yes"; "Off"; "No"]%string)
  = normalize_choices "CheckBox" (PyList ["Off"; "Yes"; "No"]%string).
Proof.
  apply X12_listing_order_irrelevant. apply perm_swap.
Defined.

(** ** Dictionaries written by a scan of the document *)

Lemma dict_get_set_same (V : Type) (d : list (string * V)) (k : string)
    (v : V) :
  dict_get (Checkbox.dict_set d k v) k = Some v.
Proof.
  induction d as [|[k' v'] d IH]; simpl.
  - now rewrite String.eqb_refl.
  - destruct (k' =? k)%string eqn:E; simpl.
    + now rewrite String.eqb_refl.
    + now rewrite E.
Qed.

Lemma dict_get_set_other (V : Type) (d : list (string * V)) (k k' : string)
    (v : V) :
  k' <> k -> dict_get (Checkbox.dict_set d k v) k' = dict_get d k'.
Proof.
  intros Hne. induction d as [|[k0 v0] d IH]; simpl.
  - apply String.eqb_neq in Hne. rewrite String.eqb_sym in Hne.
    now rewrite Hne.
  - destruct (k0 =? k)%string eqn:E; simpl.
    + apply String.eqb_eq in E. subst k0.
      assert (E1 : (k =? k')%string = false)
        by (apply String.eqb_neq; congruence).
      now rewrite E1.
    + destruct (k0 =? k')%string; [reflexivity|exact IH].
Qed.

Lemma dict_set_keys (V : Type) (d : list (string * V)) (k : string) (v : V)
    (k' : string) :
  In k' (map fst (Checkbox.dict_set d k v)) <-> k' = k \/ In k' (map fst d).
Proof.
  induction d as [|[k0 v0] d IH]; simpl.
  - intuition.
  - destruct (k0 =? k)%string eqn:E; simpl.
    + apply String.eqb_eq in E. subst k0. intuition.
    + rewrite IH. intuition.
Qed.

Lemma dict_set_NoDup (V : Type) (d : list (string * V)) (k : string) (v : V) :
  NoDup (map fst d) -> NoDup (map fst (Checkbox.dict_set d k v)).
Proof.
  induction d as [|[k0 v0] d IH]; simpl; intros Hnd.
  - constructor; [intros []|constructor].
  - inversion Hnd as [|? ? Hnotin Hnd']; subst.
    destruct (k0 =? k)%string eqn:E; simpl.
    + apply String.eqb_eq in E. subst k0. now constructor.
    + constructor; [|now apply IH].
      rewrite dict_set_keys. intros [->|Hin]; [|contradiction].
      rewrite String.eqb_refl in E. discriminate.
Qed.

Lemma dict_set_In (V : Type) (d : list (string * V)) (k : string) (v : V)
    (kv : string * V) :
  In kv (Checkbox.dict_set d k v) -> kv = (k, v) \/ In kv d.
Proof.
  induction d as [|[k0 v0] d IH]; simpl.
  - intros [<-|[]]. now left.
  - destruct (k0 =? k)%string; simpl.
    + intros [<-|H]; auto.
    + intros [<-|H]; auto. destruct (IH H); auto.
Qed.

Lemma dict_get_app (V : Type) (d1 d2 : list (string * V)) (k : string) :
  dict_get (d1 ++ d2) k
  = match dict_get d1 k with
    | Some v => Some v
    | None => dict_get d2 k
    end.
Proof.
  induction d1 as [|[k0 v0] d1 IH]; simpl; [reflexivity|].
  destruct (k0 =? k)%string; [reflexivity|exact IH].
Qed.

Lemma dict_get_In (V : Type) (d : list (string * V)) (k : string) (v : V) :
  dict_get d k = Some v -> In (k, v) d.
Proof.
  induction d as [|[k0 v0] d IH]; simpl; [discriminate|].
  destruct (k0 =? k)%string eqn:E.
  - apply String.eqb_eq in E. subst k0. intros [= <-]. now left.
  - intros H. right. now apply IH.
Qed.

Lemma write_all_NoDup (V : Type) (l d : list (string * V)) :
  NoDup (map fst d) -> NoDup (map fst (write_all l d)).
Proof.
  revert d. induction l as [|[k v] l IH]; intros d Hd; [exact Hd|].
  apply IH. now apply dict_set_NoDup.
Qed.

Lemma write_all_In (V : Type) (l d : list (string * V)) (kv : string * V) :
  In kv (write_all l d) -> In kv l \/ In kv d.
Proof.
  revert d. induction l as [|[k v] l IH]; intros d; [now right|].
  intros H. destruct (IH _ H) as [Hl|Hd]; [left; now right|].
  destruct (dict_set_In _ _ _ _ Hd) as [->|Hd']; [left; now left|now right].
Qed.

(** Reading after a sequence of writes returns the last value written under
    the key, or the old value if none was. *)
Lemma write_all_get (V : Type) (l d : list (string * V)) (k : string) :
  dict_get (write_all l d) k
  = match dict_get (rev l) k with
    | Some v => Some v
    | None => dict_get d k
    end.
Proof.
  revert d. induction l as [|[k0 v0] l IH]; intros d; [reflexivity|].
  change (write_all ((k0, v0) :: l) d)
    with (write_all l (Checkbox.dict_set d k0 v0)).
  rewrite IH. simpl rev. rewrite dict_get_app.
  destruct (dict_get (rev l) k); [reflexivity|]. simpl.
  destruct (k0 =? k)%string eqn:E.
  - apply String.eqb_eq in E. subst k0. apply dict_get_set_same.
  - apply dict_get_set_other. apply String.eqb_neq in E. congruence.
Qed.

Lemma write_all_app (V : Type) (l1 l2 d : list (string * V)) :
  write_all (l1 ++ l2) d = write_all l2 (write_all l1 d).
Proof. apply fold_left_app. Qed.

Lemma bindings_In (V : Type) (sel : Widget -> bool) (mk : nat -> Widget -> V)
    (pages : list Page) (page_num : nat) (kv : string * V) :
  In kv (bindings sel mk page_num pages) ->
  exists i page w,
    nth_error pages i = Some page /\ In w (widgets page) /\
    sel w = true /\
    kv = (str_or (field_name w) "", mk (page_num + i)%nat w).
Proof.
  revert page_num. induction pages as [|page pages IH]; intros page_num;
    [intros []|]. simpl. rewrite in_app_iff. intros [H|H].
  - unfold page_bindings in H. apply in_flat_map in H.
    destruct H as (w & Hw & Hkv).
    destruct (sel w) eqn:Es; [|destruct Hkv].
    destruct Hkv as [<-|[]].
    exists 0%nat, page, w. rewrite Nat.add_0_r. auto.
  - destruct (IH _ H) as (i & p & w & Hn & Hw & Hs & ->).
    exists (S i), p, w. rewrite Nat.add_succ_r. auto.
Qed.

Lemma In_bindings (V : Type) (sel : Widget -> bool) (mk : nat -> Widget -> V)
    (pages : list Page) (page_num : nat) (page : Page) (w : Widget) :
  In page pages -> In w (widgets page) -> sel w = true ->
  In (str_or (field_name w) "") (map fst (bindings sel mk page_num pages)).
Proof.
  revert page_num. induction pages as [|p pages IH]; intros page_num;
    [intros []|]. simpl. rewrite map_app, in_app_iff.
  intros [->|Hp] Hw Hs.
  - left. apply in_map_iff.
    exists (str_or (field_name w) "", mk page_num w). split; [reflexivity|].
    unfold page_bindings. apply in_flat_map. exists w. split; [exact Hw|].
    rewrite Hs. now left.
  - right. now apply IH.
Qed.

(** ** Further properties of the checkbox utility *)

Lemma checkbox_scan_widgets (page_num : nat) (ws : list Widget)
    (d : list (string * Checkbox.entry)) :
  Checkbox.scan_widgets page_num ws d
  = write_all (page_bindings is_checkbox Checkbox.checkbox_entry page_num ws) d.
Proof.
  revert d. induction ws as [|w ws IH]; intros d; [reflexivity|].
  simpl. rewrite IH. unfold page_bindings at 2. simpl flat_map.
  fold (page_bindings is_checkbox Checkbox.checkbox_entry page_num ws).
  rewrite write_all_app. f_equal. unfold is_checkbox.
  now destruct (truthy_str (field_name w)
                && (field_type_string w =? "CheckBox")%string).
Qed.

Lemma checkbox_scan_pages (pages : list Page) (page_num : nat)
    (d : list (string * Checkbox.entry)) :
  Checkbox.scan_pages page_num pages d
  = write_all (bindings is_checkbox Checkbox.checkbox_entry page_num pages) d.
Proof.
  revert page_num d. induction pages as [|page pages IH];
    intros page_num d; [reflexivity|].
  simpl. now rewrite IH, checkbox_scan_widgets, write_all_app.
Qed.

Lemma str_or_nonempty (s : option string) (d : string) :
  d <> ""%string -> str_or s d <> ""%string.
Proof.
  intros Hd. destruct s as [s|]; simpl; [|exact Hd].
  destruct (s =? "")%string eqn:E; [exact Hd|now apply String.eqb_neq].
Qed.

Lemma truthy_name_nonempty (w : Widget) :
  truthy_str (field_name w) = true ->
  str_or (field_name w) "" <> ""%string
  /\ field_name w = Some (str_or (field_name w) "").
Proof.
  destruct (field_name w) as [s|]; simpl; [|discriminate].
  destruct (s =? "")%string eqn:E; simpl; [discriminate|].
  intros _. split; [now apply String.eqb_neq|reflexivity].
Qed.

Lemma checkbox_entry_shape (page_num : nat) (w : Widget) :
  Checkbox.e_page (Checkbox.checkbox_entry page_num w) = (page_num + 1)%nat /\
  Checkbox.e_current_value (Checkbox.checkbox_entry page_num w)
  = str_or (field_value w) "Off" /\
  truthy (Checkbox.e_possible_values (Checkbox.checkbox_entry page_num w))
  = true.
Proof.
  unfold Checkbox.checkbox_entry.
  destruct (Checkbox.appearance_states w) as [|states]; simpl; auto.
  repeat split. now destruct (truthy states) eqn:E.
Qed.

Lemma bindings_app (V : Type) (sel : Widget -> bool)
    (mk : nat -> Widget -> V) (pages1 pages2 : list Page) (page_num : nat) :
  bindings sel mk page_num (pages1 ++ pages2)
  = bindings sel mk page_num pages1
    ++ bindings sel mk (page_num + List.length pages1)%nat pages2.
Proof.
  revert page_num. induction pages1 as [|p pages1 IH]; intros page_num; simpl.
  - now rewrite Nat.add_0_r.
  - rewrite IH, <- app_assoc. do 3 f_equal. lia.
Qed.

(** X13.  Adding a page: when a page holding a single named checkbox is
    appended to a document, the checkbox utility emits that checkbox's
    entry under its name and, under every other name, the entry it emits
    for the document without the page. *)
Theorem X13_checkbox_added_page
    (fitz_open : list Byte.byte -> Probe Document)
    (pdf_data pdf_data' : list Byte.byte) (doc : Document) (page : Page)
    (w : Widget) (name : string) :
  fitz_open pdf_data = Returns doc ->
  fitz_open pdf_data' = Returns (doc ++ [page]) ->
  widgets page = [w] ->
  field_name w = Some name -> name <> ""%string ->
  field_type_string w = "CheckBox"%string ->
  dict_get (Checkbox.get_checkbox_export_values fitz_open pdf_data') name
  = Some (Checkbox.checkbox_entry (List.length doc) w) /\
  (forall k, k <> name ->
     dict_get (Checkbox.get_checkbox_export_values fitz_open pdf_data') k
     = dict_get (Checkbox.get_checkbox_export_values fitz_open pdf_data) k).
Proof.
  intros Hopen Hopen' Hws Hname Hne Htype.
  unfold Checkbox.get_checkbox_export_values. rewrite Hopen, Hopen'. simpl.
  rewrite !checkbox_scan_pages, bindings_app, write_all_app. simpl.
  rewrite Hws. unfold page_bindings. simpl.
  assert (Hsel : is_checkbox w = true).
  { unfold is_checkbox. rewrite Hname, Htype. simpl.
    apply String.eqb_neq in Hne. now rewrite Hne. }
  assert (Hkey : str_or (field_name w) "" = name).
  { rewrite Hname. simpl. apply String.eqb_neq in Hne. now rewrite Hne. }
  rewrite Hsel, Hkey. simpl.
  split; [apply dict_get_set_same|intros k Hk; now apply dict_get_set_other].
Qed.

Lemma X13_checkbox_added_page_witness :
  option_map Checkbox.e_current_value
    (dict_get (Checkbox.get_checkbox_export_values Samples2.twice_open
                 Samples2.filled_bytes) "agree"%string)
  = Some "Off"%string.
Proof.
  rewrite (proj1 (@X13_checkbox_added_page Samples2.twice_open
                    Samples.good_bytes Samples2.filled_bytes
                    [Samples.letter [Samples2.agree_on]]
                    (Samples.letter [Samples2.agree_off])
                    Samples2.agree_off "agree"%string
                    eq_refl eq_refl eq_refl eq_refl
                    ltac:(discriminate) eq_refl)).
  reflexivity.
Defined.

(** X14.  When the document opens, the object the checkbox utility emits
    has no key twice, and every entry has a non-empty name, a page number
    between 1 and the page count, a non-empty current value ("Off" when
    the widget has none) and a non-empty value for its possible values. *)
Theorem X14_checkbox_entries_well_formed
    (fitz_open : list Byte.byte -> Probe Document)
    (pdf_data : list Byte.byte) (doc : Document) :
  fitz_open pdf_data = Returns doc ->
  NoDup (map fst (Checkbox.get_checkbox_export_values fitz_open pdf_data)) /\
  Forall (fun ke =>
            fst ke <> ""%string /\
            (1 <= Checkbox.e_page (snd ke) <= List.length doc)%nat /\
            Checkbox.e_current_value (snd ke) <> ""%string /\
            truthy (Checkbox.e_possible_values (snd ke)) = true)
         (Checkbox.get_checkbox_export_values fitz_open pdf_data).
Proof.
  intros Hopen. unfold Checkbox.get_checkbox_export_values.
  rewrite Hopen. simpl. rewrite checkbox_scan_pages. split.
  - apply write_all_NoDup. constructor.
  - apply Forall_forall. intros ke Hke.
    apply write_all_In in Hke. destruct Hke as [Hke|[]].
    apply bindings_In in Hke.
    destruct Hke as (i & page & w & Hn & Hw & Hs & ->). simpl.
    unfold is_checkbox in Hs. apply andb_true_iff in Hs.
    destruct Hs as [Hname _].
    destruct (checkbox_entry_shape i w) as (Hp & Hc & Ht).
    split; [apply (truthy_name_nonempty w Hname)|].
    split; [|split; [|exact Ht]].
    + rewrite Hp. assert (i < List.length doc)%nat; [|lia].
      apply nth_error_Some. congruence.
    + rewrite Hc. now apply str_or_nonempty.
Qed.

Lemma X14_checkbox_entries_well_formed_witness :
  NoDup (map fst (Checkbox.get_checkbox_export_values
                    (Samples.opens Samples2.twice_doc) Samples.good_bytes)).
Proof.
  exact (proj1 (X14_checkbox_entries_well_formed
                  (Samples.opens Samples2.twice_doc) Samples.good_bytes
                  eq_refl)).
Defined.

(** X15.  When several checkbox widgets carry one name, the entry emitted
    under that name is the one of the last of them in document order. *)
Theorem X15_checkbox_last_writer_wins
    (fitz_open : list Byte.byte -> Probe Document)
    (pdf_data : list Byte.byte) (doc : Document) (name : string) :
  fitz_open pdf_data = Returns doc ->
  dict_get (Checkbox.get_checkbox_export_values fitz_open pdf_data) name
  = dict_get (rev (bindings is_checkbox Checkbox.checkbox_entry 0 doc)) name.
Proof.
  intros Hopen. unfold Checkbox.get_checkbox_export_values.
  rewrite Hopen. simpl. rewrite checkbox_scan_pages, write_all_get.
  now destruct (dict_get (rev (bindings is_checkbox Checkbox.checkbox_entry
                                 0 doc)) name).
Qed.

Lemma X15_checkbox_last_writer_wins_witness :
  option_map (fun e => (Checkbox.e_page e, Checkbox.e_current_value e))
    (dict_get (Checkbox.get_checkbox_export_values
                 (Samples.opens Samples2.twice_doc) Samples.good_bytes)
              "agree"%string)
  = Some (2%nat, "Off"%string).
Proof.
  rewrite (X15_checkbox_last_writer_wins (Samples.opens Samples2.twice_doc)
             Samples.good_bytes "agree"%string eq_refl).
  reflexivity.
Defined.

(** X16.  In the checkbox utility a non-empty key list of the annotation's
    normal appearance replaces whatever [button_states()] returned (the
    discovery script lets [button_states()] win instead). *)
Theorem X16_checkbox_appearance_keys_override (page_num : nat) (w : Widget)
    (annot : Annot) (k : string) (ks : list string) :
  button_states w <> Some Raises ->
  _annot w = Some (Some annot) ->
  annot_get_AP annot
  = Returns (Some {| ap_N := Some (WithKeys (k :: ks)) |}) ->
  Checkbox.e_possible_values (Checkbox.checkbox_entry page_num w)
  = PyList (k :: ks).
Proof.
  intros Hbs Ha Hap.
  unfold Checkbox.checkbox_entry, Checkbox.appearance_states.
  rewrite Ha. simpl. rewrite Hap. simpl.
  destruct (button_states w) as [[|c]|]; simpl; try reflexivity.
  now destruct Hbs.
Qed.

Lemma X16_checkbox_appearance_keys_override_witness :
  Checkbox.e_possible_values
    (Checkbox.checkbox_entry 0 Samples2.both_checkbox)
  = PyList ["Yes"; "Off"]%string.
Proof.
  apply (X16_checkbox_appearance_keys_override 0 Samples2.both_checkbox
           (annot := Samples.yes_off_annot)); [discriminate| |];
    reflexivity.
Defined.

(** ** Further properties of page-to-image conversion *)

Lemma getitem_in_range (doc : Document) (i : Z) :
  (0 <= i < Z.of_nat (List.length doc))%Z ->
  exists page,
    getitem doc i = Returns page /\ nth_error doc (Z.to_nat i) = Some page.
Proof.
  intros Hi. unfold getitem.
  assert (E1 : (Z.of_nat (List.length doc) <=? i)%Z = false)
    by (apply Z.leb_gt; lia).
  assert (E2 : (Z.of_nat (List.length doc) =? 0)%Z = false)
    by (apply Z.eqb_neq; lia).
  rewrite E1, E2, Z.mod_small by lia.
  destruct (nth_error doc (Z.to_nat i)) as [page|] eqn:E; [eauto|].
  apply nth_error_None in E. lia.
Qed.

Section ConversionRuns.
Variable b64encode : list Byte.byte -> string.
Variable doc : Document.

Let total_pages : Z := Z.of_nat (List.length doc).

Lemma convert_pages_all_render (page_numbers : list Z) :
  Forall (fun p => renders p = true) doc ->
  Forall (fun p => 0 <= p)%Z page_numbers ->
  exists images,
    convert_pages b64encode doc total_pages page_numbers
    = (filter (fun p => p <? total_pages)%Z page_numbers, Returns images) /\
    map i_page images
    = map (fun p => p + 1)%Z
          (filter (fun p => p <? total_pages)%Z page_numbers).
Proof.
  intros Hr Hnn. induction Hnn as [|p rest Hp _ IH].
  - exists []. split; reflexivity.
  - destruct IH as (images & E & Hm). simpl.
    rewrite (Z.leb_antisym p total_pages).
    destruct (p <? total_pages)%Z eqn:Elt; simpl.
    + apply Z.ltb_lt in Elt.
      assert (Hrange : (0 <= p < Z.of_nat (List.length doc))%Z)
        by (unfold total_pages in Elt; lia).
      destruct (@getitem_in_range doc _ Hrange) as (page & -> & Hn).
      assert (Hpage : renders page = true).
      { rewrite Forall_forall in Hr. apply Hr.
        now apply nth_error_In in Hn. }
      unfold renders in Hpage.
      destruct (get_pixmap page) as [|pix]; [discriminate|].
      rewrite E. simpl. eexists. split; [reflexivity|].
      simpl. now rewrite Hm.
    + exists images. now split.
Qed.

Lemma convert_pages_render_failure (page_numbers : list Z) (q : Z)
    (page : Page) :
  In q page_numbers -> (0 <= q < total_pages)%Z ->
  nth_error doc (Z.to_nat q) = Some page -> renders page = false ->
  snd (convert_pages b64encode doc total_pages page_numbers) = Raises.
Proof.
  intros Hin Hq Hn Hr. induction page_numbers as [|p rest IH];
    [destruct Hin|]. simpl.
  destruct (total_pages <=? p)%Z eqn:Ele.
  - apply Z.leb_le in Ele. destruct Hin as [->|Hin]; [lia|now apply IH].
  - destruct (getitem doc p) as [|page'] eqn:Eg; [reflexivity|].
    destruct (get_pixmap page') as [|pix] eqn:Ep; [reflexivity|].
    destruct Hin as [->|Hin].
    + assert (Hrange : (0 <= q < Z.of_nat (List.length doc))%Z)
        by (unfold total_pages in Hq; lia).
      destruct (@getitem_in_range doc _ Hrange) as (page'' & Eg' & Hn').
      assert (page' = page) by congruence. subst page'.
      unfold renders in Hr. rewrite Ep in Hr. discriminate.
    + specialize (IH Hin).
      destruct (convert_pages b64encode doc total_pages rest)
        as [calls images]. simpl in *. now rewrite IH.
Qed.

Lemma convert_pages_length (page_numbers : list Z) (calls : list Z)
    (images : list image) :
  convert_pages b64encode doc total_pages page_numbers
  = (calls, Returns images) ->
  (List.length images <= List.length page_numbers)%nat.
Proof.
  revert calls images.
  induction page_numbers as [|p rest IH]; intros calls images; simpl.
  - intros [= _ <-]. simpl. lia.
  - destruct (total_pages <=? p)%Z.
    + intros H. apply IH in H. lia.
    + destruct (getitem doc p) as [|page]; [discriminate|].
      destruct (get_pixmap page) as [|pix]; [discriminate|].
      destruct (convert_pages b64encode doc total_pages rest)
        as [calls' [|images']]; simpl; [discriminate|].
      intros [= _ <-]. simpl. specialize (IH calls' images' eq_refl). lia.
Qed.
End ConversionRuns.

Lemma range_shift (n : Z) :
  map (fun p => p + 1)%Z (range n) = map Z.of_nat (seq 1 (Z.to_nat n)).
Proof.
  unfold range. rewrite <- seq_shift, !map_map.
  apply map_ext. intros k. lia.
Qed.

Lemma filter_all (A : Type) (P : A -> bool) (l : list A) :
  Forall (fun a => P a = true) l -> filter P l = l.
Proof.
  induction 1 as [|a l Ha _ IH]; [reflexivity|].
  simpl. now rewrite Ha, IH.
Qed.

(** X17.  With no page list, a document of at most 100 pages whose pages
    all render is converted from its first page on, in order, up to
    [max_pages] pages: the emitted page numbers are 1, 2, ..., min(page
    count, max_pages). *)
Theorem X17_default_pages_in_order
    (fitz_open : list Byte.byte -> Probe Document)
    (b64encode : list Byte.byte -> string) (pdf_data : list Byte.byte)
    (max_pages : Z) (doc : Document) :
  fitz_open pdf_data = Returns doc ->
  (Z.of_nat (List.length doc) <= MAX_TOTAL_PAGES)%Z ->
  Forall (fun p => renders p = true) doc ->
  map i_page
      (snd (pdf_to_images_for_ai fitz_open b64encode pdf_data None max_pages))
  = map Z.of_nat
        (seq 1 (Z.to_nat (Z.min (Z.of_nat (List.length doc)) max_pages))).
Proof.
  intros Hopen Hsmall Hr. unfold pdf_to_images_for_ai. rewrite Hopen.
  assert (E : (MAX_TOTAL_PAGES <? Z.of_nat (List.length doc))%Z = false)
    by (apply Z.ltb_ge; exact Hsmall).
  rewrite E.
  set (n := Z.min (Z.of_nat (List.length doc)) max_pages).
  destruct (@convert_pages_all_render b64encode doc (range n) Hr)
    as (images & Ec & Hm).
  { eapply Forall_impl; [|apply range_bounds]. simpl. lia. }
  rewrite Ec. simpl. rewrite Hm, filter_all; [apply range_shift|].
  eapply Forall_impl; [|apply (range_bounds n)]. simpl.
  intros p Hp. apply Z.ltb_lt. subst n. lia.
Qed.

Lemma X17_default_pages_in_order_witness :
  map i_page
      (snd (pdf_to_images_for_ai (Samples.opens Samples2.plain_doc)
              Samples.encode Samples.good_bytes None 2))
  = [1; 2]%Z.
Proof.
  apply (X17_default_pages_in_order (Samples.opens Samples2.plain_doc)
           Samples.encode Samples.good_bytes 2
           (doc := Samples2.plain_doc) eq_refl).
  - vm_compute. discriminate.
  - repeat constructor.
Defined.

(** X18.  With a non-empty list of non-negative page indices, a document
    of at most 100 pages whose pages all render yields one image for each
    of the first [max_pages] requested indices that is below the page
    count, in the order requested and with repetitions kept. *)
Theorem X18_requested_pages_in_order
    (fitz_open : list Byte.byte -> Probe Document)
    (b64encode : list Byte.byte -> string) (pdf_data : list Byte.byte)
    (p : Z) (ps : list Z) (max_pages : Z) (doc : Document) :
  fitz_open pdf_data = Returns doc ->
  (Z.of_nat (List.length doc) <= MAX_TOTAL_PAGES)%Z ->
  Forall (fun p => renders p = true) doc ->
  Forall (fun q => 0 <= q)%Z (p :: ps) ->
  (0 <= max_pages)%Z ->
  map i_page
      (snd (pdf_to_images_for_ai fitz_open b64encode pdf_data
              (Some (p :: ps)) max_pages))
  = map (fun q => q + 1)%Z
        (filter (fun q => q <? Z.of_nat (List.length doc))%Z
                (firstn (Z.to_nat max_pages) (p :: ps))).
Proof.
  intros Hopen Hsmall Hr Hnn _. unfold pdf_to_images_for_ai. rewrite Hopen.
  assert (E : (MAX_TOTAL_PAGES <? Z.of_nat (List.length doc))%Z = false)
    by (apply Z.ltb_ge; exact Hsmall).
  rewrite E. unfold take.
  destruct (@convert_pages_all_render b64encode doc
              (firstn (Z.to_nat max_pages) (p :: ps)) Hr)
    as (images & Ec & Hm); [now apply Forall_firstn|].
  rewrite Ec. simpl snd. exact Hm.
Qed.

Lemma X18_requested_pages_in_order_witness :
  map i_page
      (snd (pdf_to_images_for_ai (Samples.opens Samples2.plain_doc)
              Samples.encode Samples.good_bytes
              (Some [2; 5; 0; 2; 1]%Z) 4))
  = [3; 1; 3]%Z.
Proof.
  refine (@X18_requested_pages_in_order (Samples.opens Samples2.plain_doc)
            Samples.encode Samples.good_bytes 2%Z [5; 0; 2; 1]%Z 4%Z
            Samples2.plain_doc eq_refl _ _ _ _).
  - vm_compute. discriminate.
  - repeat constructor.
  - repeat apply Forall_cons; try apply Forall_nil; lia.
  - lia.
Defined.

(** X19.  Conversion is all or nothing: if one of the pages to convert
    cannot be rendered, the result is empty, whatever pages were converted
    before it. *)
Theorem X19_render_failure_discards_all
    (fitz_open : list Byte.byte -> Probe Document)
    (b64encode : list Byte.byte -> string) (pdf_data : list Byte.byte)
    (requested : option (list Z)) (max_pages : Z) (doc : Document)
    (q : Z) (page : Page) :
  fitz_open pdf_data = Returns doc ->
  In q match requested with
       | Some (p :: ps) => take max_pages (p :: ps)
       | _ => range (Z.min (Z.of_nat (List.length doc)) max_pages)
       end ->
  (0 <= q < Z.of_nat (List.length doc))%Z ->
  nth_error doc (Z.to_nat q) = Some page ->
  renders page = false ->
  snd (pdf_to_images_for_ai fitz_open b64encode pdf_data requested max_pages)
  = [].
Proof.
  intros Hopen Hin Hq Hn Hr. unfold pdf_to_images_for_ai. rewrite Hopen.
  destruct (MAX_TOTAL_PAGES <? Z.of_nat (List.length doc))%Z; [reflexivity|].
  pose proof (@convert_pages_render_failure b64encode doc _ q page
                Hin Hq Hn Hr) as Hfail.
  destruct (convert_pages b64encode doc (Z.of_nat (List.length doc)) _)
    as [calls images]. simpl in *. now rewrite Hfail.
Qed.

Lemma X19_render_failure_discards_all_witness :
  snd (pdf_to_images_for_ai (Samples.opens Samples2.torn_doc)
         Samples.encode Samples.good_bytes (Some [0; 1; 2]%Z) 50) = [].
Proof.
  refine (@X19_render_failure_discards_all
            (Samples.opens Samples2.torn_doc) Samples.encode
            Samples.good_bytes (Some [0; 1; 2]%Z) 50%Z Samples2.torn_doc
            1%Z Samples2.torn_page eq_refl _ _ eq_refl eq_refl).
  - right. left. reflexivity.
  - simpl. lia.
Defined.

Lemma range_length (n : Z) : List.length (range n) = Z.to_nat n.
Proof. unfold range. now rewrite length_map, length_seq. Qed.

(** X20.  The entry point never emits more than 50 images. *)
Theorem X20_at_most_fifty_images
    (fitz_open : list Byte.byte -> Probe Document)
    (b64encode : list Byte.byte -> string) (pdf_data : list Byte.byte)
    (argv : list cli_arg) :
  (List.length (snd (Images.main fitz_open b64encode pdf_data argv))
   <= 50)%nat.
Proof.
  unfold Images.main, pdf_to_images_for_ai.
  destruct (fitz_open pdf_data) as [|doc]; simpl; [lia|].
  destruct (MAX_TOTAL_PAGES <? Z.of_nat (List.length doc))%Z; simpl; [lia|].
  set (page_numbers :=
         match pages (parse_args argv) with
         | Some (p :: ps) => take DEFAULT_MAX_PAGES (p :: ps)
         | _ => range (Z.min (Z.of_nat (List.length doc)) DEFAULT_MAX_PAGES)
         end).
  assert (Hlen : (List.length page_numbers <= 50)%nat).
  { subst page_numbers.
    destruct (pages (parse_args argv)) as [[|p ps]|].
    - rewrite range_length. unfold DEFAULT_MAX_PAGES. lia.
    - unfold take. rewrite length_firstn. unfold DEFAULT_MAX_PAGES. lia.
    - rewrite range_length. unfold DEFAULT_MAX_PAGES. lia. }
  destruct (convert_pages b64encode doc (Z.of_nat (List.length doc))
              page_numbers) as [calls [|images]] eqn:E; simpl; [lia|].
  apply convert_pages_length in E. lia.
Qed.

Lemma parse_arg_keeps_pages (st : cli_state) (arg : cli_arg) :
  no_pages st = false -> pages (parse_arg st arg) = pages st.
Proof.
  intros H. destruct arg; simpl; try reflexivity; now rewrite H.
Qed.

Lemma parse_args_keep_pages (argv : list cli_arg) (st : cli_state) :
  no_pages st = false -> pages (fold_left parse_arg argv st) = pages st.
Proof.
  revert st. induction argv as [|arg argv IH]; intros st H; [reflexivity|].
  simpl. rewrite IH.
  - now apply parse_arg_keeps_pages.
  - unfold no_pages in *. now rewrite parse_arg_keeps_pages.
Qed.

(** X21.  The first page argument that yields a non-empty page list wins:
    once the argument loop holds a non-empty page list, no later argument
    changes it. *)
Theorem X21_first_page_argument_wins (argv1 argv2 : list cli_arg) :
  no_pages (parse_args argv1) = false ->
  pages (parse_args (argv1 ++ argv2)) = pages (parse_args argv1).
Proof.
  intros H. unfold parse_args in *. rewrite fold_left_app.
  now apply parse_args_keep_pages.
Qed.

Lemma X21_first_page_argument_wins_witness :
  pages (parse_args ([ArgInt 0; ArgJsonPages [2; 3]; ArgSave]%Z
                     ++ [ArgInt 7; ArgJsonPages [1]]%Z))
  = Some [1; 2]%Z.
Proof.
  rewrite (@X21_first_page_argument_wins
             [ArgInt 0; ArgJsonPages [2; 3]; ArgSave]%Z
             [ArgInt 7; ArgJsonPages [1]]%Z eq_refl).
  reflexivity.
Defined.


Example file_names :
  map (fun n =>
         ImageSave.file_name "output"
           {| i_page := n; i_format := "jpeg"; i_data := ""; i_width := 0;
              i_height := 0; i_size_kb := 0 |})
      [3; 12; 100]%Z
  = ["output/page_03.jpeg"; "output/page_12.jpeg";
     "output/page_100.jpeg"]%string /\
  ImageSave.path_join "out/" "page_03.jpeg" = "out/page_03.jpeg"%string /\
  ImageSave.path_join "" "page_03.jpeg" = "page_03.jpeg"%string.
Proof. vm_compute. repeat split. Qed.




(** ** Form filling *)

Lemma fill_widget_not_asked (fv : list (string * string)) (w : Widget) :
  asked fv w = false -> Fill.fill_widget fv w = w.
Proof.
  unfold asked, named, Fill.fill_widget.
  destruct (truthy_str (field_name w)); simpl; [|reflexivity].
  destruct (Fill.lookup fv (str_or (field_name w) "")); [|reflexivity].
  discriminate.
Qed.

Lemma fill_widget_asked (fv : list (string * string)) (w : Widget)
    (v : string) :
  named w = true ->
  Fill.lookup fv (str_or (field_name w) "") = Some v ->
  update_raises w = false ->
  Fill.fill_widget fv w
  = {| field_name := field_name w;
       field_type_string := field_type_string w;
       field_value := Some v;
       rect := rect w;
       field_flags := field_flags w;
       button_states := button_states w;
       _annot := _annot w;
       _get_widget := _get_widget w;
       update_raises := update_raises w |}.
Proof.
  unfold named, Fill.fill_widget. now intros -> -> _.
Qed.

Lemma fill_widget_keeps (fv : list (string * string)) (w : Widget) :
  field_name (Fill.fill_widget fv w) = field_name w /\
  field_type_string (Fill.fill_widget fv w) = field_type_string w /\
  rect (Fill.fill_widget fv w) = rect w /\
  update_raises (Fill.fill_widget fv w) = update_raises w.
Proof.
  unfold Fill.fill_widget.
  destruct (truthy_str (field_name w)); [|auto].
  destruct (Fill.lookup fv (str_or (field_name w) "")); simpl; auto.
Qed.

Lemma fill_widget_idempotent (fv : list (string * string)) (w : Widget) :
  Fill.fill_widget fv (Fill.fill_widget fv w) = Fill.fill_widget fv w.
Proof.
  unfold Fill.fill_widget at 2.
  destruct (truthy_str (field_name w)) eqn:En;
    [|unfold Fill.fill_widget; now rewrite En].
  destruct (Fill.lookup fv (str_or (field_name w) "")) as [v|] eqn:El;
    [|unfold Fill.fill_widget; now rewrite En, El].
  unfold Fill.fill_widget. simpl. now rewrite En, El.
Qed.

Lemma form_data_empty (fv : list (string * string)) (doc : Document)
    (p : Page) (w : Widget) :
  Fill.form_data fv doc = [] -> In p doc -> In w (widgets p) ->
  asked fv w = false.
Proof.
  intros He Hp Hw. destruct (asked fv w) eqn:Ea; [|reflexivity]. exfalso.
  assert (Hin : In (str_or (field_name w) "") (Fill.form_data fv doc)).
  { unfold Fill.form_data. apply in_flat_map. exists p. split; [exact Hp|].
    apply in_flat_map. exists w. split; [exact Hw|].
    unfold asked, named in Ea. apply andb_true_iff in Ea.
    destruct Ea as [-> Hl].
    destruct (Fill.lookup fv (str_or (field_name w) ""));
      [now left|discriminate]. }
  rewrite He in Hin. destruct Hin.
Qed.

Lemma fill_page_unchanged (fv : list (string * string)) (p : Page) :
  (forall w, In w (widgets p) -> asked fv w = false) ->
  Fill.fill_page fv p = p.
Proof.
  intros H. unfold Fill.fill_page. destruct p as [h ws px]; simpl in *.
  f_equal. induction ws as [|w ws IH]; [reflexivity|]. simpl.
  rewrite fill_widget_not_asked by (apply H; now left).
  f_equal. apply IH. intros w' Hw'. apply H. now right.
Qed.

(** The shortcut taken when no widget is asked for changes nothing: the
    document handed to the engine is always the page-wise filled one. *)
Lemma fill_document_pagewise (fv : list (string * string)) (doc : Document) :
  Fill.fill_document fv doc = map (Fill.fill_page fv) doc.
Proof.
  unfold Fill.fill_document.
  destruct (Fill.form_data fv doc) as [|n ns] eqn:E; [|reflexivity].
  pose proof (form_data_empty fv doc) as H. specialize (fun p w => H p w E).
  clear E. induction doc as [|p doc IH]; [reflexivity|]. simpl.
  rewrite fill_page_unchanged
    by (intros w Hw; apply (H p); [now left|exact Hw]).
  f_equal. apply IH. intros p' w Hp'. apply H. now right.
Qed.

Lemma fill_document_nth (fv : list (string * string)) (doc : Document)
    (i j : nat) (p : Page) (w : Widget) :
  nth_error doc i = Some p -> nth_error (widgets p) j = Some w ->
  exists p',
    nth_error (Fill.fill_document fv doc) i = Some p' /\
    nth_error (widgets p') j = Some (Fill.fill_widget fv w).
Proof.
  intros Hp Hw. rewrite fill_document_pagewise.
  exists (Fill.fill_page fv p). split.
  - now apply map_nth_error.
  - simpl. now apply map_nth_error.
Qed.

(** X23.  Filling keeps the shape of the document: the same pages with the
    same heights, and on every page the same widgets in the same order
    with their names, types and rectangles. *)
Theorem X23_fill_keeps_structure (fv : list (string * string))
    (doc : Document) :
  List.length (Fill.fill_document fv doc) = List.length doc /\
  map page_height (Fill.fill_document fv doc) = map page_height doc /\
  map (fun p => map (fun w => (field_name w, field_type_string w, rect w))
                    (widgets p))
      (Fill.fill_document fv doc)
  = map (fun p => map (fun w => (field_name w, field_type_string w, rect w))
                      (widgets p))
        doc.
Proof.
  rewrite fill_document_pagewise. split; [apply length_map|].
  split; rewrite map_map; apply map_ext; intros p; [reflexivity|].
  simpl. rewrite map_map. apply map_ext. intros w.
  destruct (fill_widget_keeps fv w) as (-> & -> & -> & _). reflexivity.
Qed.

(** X24.  Filling touches only what was asked for: a widget that is
    unnamed, or whose name is not a key of the requested values, is left
    exactly as it was. *)
Theorem X24_fill_leaves_others_alone (fv : list (string * string))
    (doc : Document) (i j : nat) (p : Page) (w : Widget) :
  nth_error doc i = Some p -> nth_error (widgets p) j = Some w ->
  asked fv w = false ->
  exists p',
    nth_error (Fill.fill_document fv doc) i = Some p' /\
    nth_error (widgets p') j = Some w.
Proof.
  intros Hp Hw Hna.
  destruct (fill_document_nth fv doc i j Hp Hw) as (p' & Hp' & Hw').
  exists p'. split; [exact Hp'|].
  now rewrite fill_widget_not_asked in Hw'.
Qed.

Lemma X24_fill_leaves_others_alone_witness :
  exists p',
    nth_error (Fill.fill_document Samples2.jane_values Samples2.jane_doc) 0
    = Some p' /\
    nth_error (widgets p') 1 = Some Samples2.date_widget.
Proof.
  exact (@X24_fill_leaves_others_alone Samples2.jane_values Samples2.jane_doc
           0 1 (Samples.letter [Samples2.name_widget; Samples2.date_widget])
           Samples2.date_widget eq_refl eq_refl eq_refl).
Defined.

(** X25.  A named widget whose name is a key of the requested values and
    whose update does not raise holds the requested value afterwards, on
    whatever page it stands; its name, type and rectangle are kept. *)
Theorem X25_fill_sets_requested_value (fv : list (string * string))
    (doc : Document) (i j : nat) (p : Page) (w : Widget) (v : string) :
  nth_error doc i = Some p -> nth_error (widgets p) j = Some w ->
  named w = true ->
  Fill.lookup fv (str_or (field_name w) "") = Some v ->
  update_raises w = false ->
  exists p' w',
    nth_error (Fill.fill_document fv doc) i = Some p' /\
    nth_error (widgets p') j = Some w' /\
    field_value w' = Some v /\
    field_name w' = field_name w /\
    field_type_string w' = field_type_string w /\
    rect w' = rect w.
Proof.
  intros Hp Hw Hn Hl Hu.
  destruct (fill_document_nth fv doc i j Hp Hw) as (p' & Hp' & Hw').
  exists p', (Fill.fill_widget fv w).
  split; [exact Hp'|]. split; [exact Hw'|].
  rewrite (fill_widget_asked fv w Hn Hl Hu). simpl. auto.
Qed.

Lemma X25_fill_sets_requested_value_witness :
  exists p' w',
    nth_error (Fill.fill_document Samples2.jane_values Samples2.jane_doc) 1
    = Some p' /\
    nth_error (widgets p') 0 = Some w' /\
    field_value w' = Some "Jane"%string /\
    field_name w' = Some "name"%string /\
    field_type_string w' = "Text"%string /\
    rect w' = rect Samples2.name_widget.
Proof.
  exact (@X25_fill_sets_requested_value Samples2.jane_values
           Samples2.jane_doc 1 0 (Samples.letter [Samples2.name_widget])
           Samples2.name_widget "Jane"%string
           eq_refl eq_refl eq_refl eq_refl eq_refl).
Defined.

(** X26.  Filling is idempotent: filling a filled document with the same
    values changes nothing. *)
Theorem X26_fill_idempotent (fv : list (string * string)) (doc : Document) :
  Fill.fill_document fv (Fill.fill_document fv doc)
  = Fill.fill_document fv doc.
Proof.
  rewrite !fill_document_pagewise, map_map. apply map_ext. intros p.
  unfold Fill.fill_page. simpl. f_equal.
  rewrite map_map. apply map_ext, fill_widget_idempotent.
Qed.

(** X27.  The filling entry point writes either the bytes the engine
    serialized from the filled document, or, when opening or serializing
    raised, the unmodified input bytes. *)
Theorem X27_fill_output (fitz_open : list Byte.byte -> Probe Document)
    (tobytes : Document -> Probe (list Byte.byte))
    (pdf_data : list Byte.byte) (fv : list (string * string)) :
  (exists doc pdf_bytes,
     fitz_open pdf_data = Returns doc /\
     tobytes (Fill.fill_document fv doc) = Returns pdf_bytes /\
     Fill.main fitz_open tobytes pdf_data fv = pdf_bytes) \/
  ((fitz_open pdf_data = Raises \/
    exists doc, fitz_open pdf_data = Returns doc /\
                tobytes (Fill.fill_document fv doc) = Raises) /\
   Fill.main fitz_open tobytes pdf_data fv = pdf_data).
Proof.
  unfold Fill.main, Fill.fill_pdf_form_with_fitz_v2.
  destruct (fitz_open pdf_data) as [|doc] eqn:Eo; simpl; [right; auto|].
  destruct (tobytes (Fill.fill_document fv doc)) as [|pdf_bytes] eqn:Et;
    simpl.
  - right. split; [right; eauto|reflexivity].
  - left. eauto.
Qed.

(** ** Reading the fields back *)

Lemma write_all_keys (V : Type) (l d : list (string * V)) (k : string) :
  In k (map fst (write_all l d)) <-> In k (map fst l) \/ In k (map fst d).
Proof.
  revert d. induction l as [|[k0 v0] l IH]; intros d.
  - simpl. intuition.
  - change (write_all ((k0, v0) :: l) d)
      with (write_all l (Checkbox.dict_set d k0 v0)).
    rewrite IH, dict_set_keys. simpl. intuition.
Qed.

Lemma fillcheck_scan_widgets (page_num : nat) (ws : list Widget)
    (d : list (string * FillCheck.info)) :
  FillCheck.scan_widgets page_num ws d
  = write_all (page_bindings named FillCheck.widget_info page_num ws) d.
Proof.
  revert d. induction ws as [|w ws IH]; intros d; [reflexivity|].
  simpl. rewrite IH. unfold page_bindings at 2. simpl flat_map.
  fold (page_bindings named FillCheck.widget_info page_num ws).
  rewrite write_all_app. f_equal. unfold named.
  now destruct (truthy_str (field_name w)).
Qed.

Lemma fillcheck_scan_pages (pages : list Page) (page_num : nat)
    (d : list (string * FillCheck.info)) :
  FillCheck.scan_pages page_num pages d
  = write_all (bindings named FillCheck.widget_info page_num pages) d.
Proof.
  revert page_num d. induction pages as [|page pages IH];
    intros page_num d; [reflexivity|].
  simpl. now rewrite IH, fillcheck_scan_widgets, write_all_app.
Qed.

Lemma verifypdf_scan_widgets (page_num : nat) (ws : list Widget)
    (d : list (string * VerifyPdf.found)) :
  VerifyPdf.scan_widgets page_num ws d
  = write_all (page_bindings is_filled VerifyPdf.widget_found page_num ws) d.
Proof.
  revert d. induction ws as [|w ws IH]; intros d; [reflexivity|].
  simpl. rewrite IH. unfold page_bindings at 2. simpl flat_map.
  fold (page_bindings is_filled VerifyPdf.widget_found page_num ws).
  rewrite write_all_app. f_equal. unfold is_filled.
  now destruct (truthy_str (field_name w) && truthy_str (field_value w)).
Qed.

Lemma verifypdf_scan_pages (pages : list Page) (page_num : nat)
    (d : list (string * VerifyPdf.found)) :
  VerifyPdf.scan_pages page_num pages d
  = write_all (bindings is_filled VerifyPdf.widget_found page_num pages) d.
Proof.
  revert page_num d. induction pages as [|page pages IH];
    intros page_num d; [reflexivity|].
  simpl. now rewrite IH, verifypdf_scan_widgets, write_all_app.
Qed.

Lemma verdicts_In (fv : list (string * string))
    (verification : list (string * FillCheck.info)) (k : string) (b : bool) :
  In (k, b) (FillCheck.verdicts fv verification) ->
  exists i expected,
    In (k, i) verification /\ Fill.lookup fv k = Some expected /\
    b = (FillCheck.v_value i =? expected)%string.
Proof.
  induction verification as [|[k0 i0] rest IH]; simpl; [intros []|].
  destruct (Fill.lookup fv k0) as [expected|] eqn:El.
  - intros [[= <- <-]|H].
    + exists i0, expected. auto.
    + destruct (IH H) as (i & e & Hi & Hl & Hb). exists i, e. auto.
  - intros H. destruct (IH H) as (i & e & Hi & Hl & Hb). exists i, e. auto.
Qed.

Lemma In_verdicts (fv : list (string * string))
    (verification : list (string * FillCheck.info)) (k : string)
    (i : FillCheck.info) (expected : string) :
  In (k, i) verification -> Fill.lookup fv k = Some expected ->
  In (k, (FillCheck.v_value i =? expected)%string)
     (FillCheck.verdicts fv verification).
Proof.
  intros Hin Hl. induction verification as [|[k0 i0] rest IH];
    [destruct Hin|]. simpl.
  destruct Hin as [[= -> ->]|Hin].
  - rewrite Hl. now left.
  - destruct (Fill.lookup fv k0); [right|]; now apply IH.
Qed.

Lemma str_or_some (e : string) : str_or (Some e) "" = e.
Proof.
  simpl. destruct (e =? "")%string eqn:E; [|reflexivity].
  apply String.eqb_eq in E. now subst.
Qed.

Lemma In_key_binding (V : Type) (d : list (string * V)) (k : string) :
  In k (map fst d) -> exists v, In (k, v) d.
Proof.
  intros H. apply in_map_iff in H. destruct H as ([k' v] & <- & H). eauto.
Qed.

(** Every binding read back from a filled document whose updates all
    succeeded carries the requested value. *)
Lemma filled_bindings_match (fv : list (string * string)) (doc : Document)
    (k : string) (i : FillCheck.info) (expected : string) :
  (forall p w, In p doc -> In w (widgets p) -> update_raises w = false) ->
  In (k, i) (bindings named FillCheck.widget_info 0
               (Fill.fill_document fv doc)) ->
  Fill.lookup fv k = Some expected ->
  FillCheck.v_value i = expected.
Proof.
  intros Hok Hin Hl. apply bindings_In in Hin.
  destruct Hin as (n & p' & w' & Hn & Hw' & Hs & [= -> ->]).
  apply nth_error_In in Hn. rewrite fill_document_pagewise in Hn.
  apply in_map_iff in Hn. destruct Hn as (p & <- & Hp).
  simpl in Hw'. apply in_map_iff in Hw'. destruct Hw' as (w & <- & Hw).
  destruct (fill_widget_keeps fv w) as (En & _).
  unfold named in Hs. rewrite En in *.
  rewrite (fill_widget_asked fv w Hs Hl (Hok p w Hp Hw)).
  unfold FillCheck.widget_info. cbn [FillCheck.v_value field_value].
  apply str_or_some.
Qed.

(** X28.  Fill and verify: if the engine reads back what it wrote, the
    written bytes are not empty and no widget update raises, then the
    verification pass reports no mismatch, and it reports as verified the
    name of every widget that was asked for. *)
Theorem X28_fill_then_verify (fitz_open : list Byte.byte -> Probe Document)
    (tobytes : Document -> Probe (list Byte.byte))
    (pdf_data : list Byte.byte) (fv : list (string * string))
    (doc : Document) (b : Byte.byte) (pdf_bytes : list Byte.byte) :
  fitz_open pdf_data = Returns doc ->
  tobytes (Fill.fill_document fv doc) = Returns (b :: pdf_bytes) ->
  fitz_open (b :: pdf_bytes) = Returns (Fill.fill_document fv doc) ->
  (forall p w, In p doc -> In w (widgets p) -> update_raises w = false) ->
  Forall (fun nb => snd nb = true)
         (FillCheck.main_report fitz_open tobytes pdf_data fv) /\
  (forall p w, In p doc -> In w (widgets p) -> asked fv w = true ->
               In (str_or (field_name w) "", true)
                  (FillCheck.main_report fitz_open tobytes pdf_data fv)).
Proof.
  intros Hopen Hbytes Hback Hok.
  unfold FillCheck.main_report, Fill.fill_pdf_form_with_fitz_v2,
    FillCheck.verify_filled_pdf.
  rewrite Hopen. simpl. rewrite Hbytes. simpl. rewrite Hback. simpl.
  rewrite fillcheck_scan_pages. split.
  - apply Forall_forall. intros [k v] Hin. simpl.
    apply verdicts_In in Hin. destruct Hin as (i & e & Hi & Hl & ->).
    apply write_all_In in Hi. destruct Hi as [Hi|[]].
    rewrite (@filled_bindings_match fv doc k i e Hok Hi Hl).
    apply String.eqb_refl.
  - intros p w Hp Hw Ha.
    unfold asked in Ha. apply andb_true_iff in Ha. destruct Ha as [Hn Hl].
    destruct (Fill.lookup fv (str_or (field_name w) "")) as [e|] eqn:El;
      [|discriminate].
    destruct (fill_widget_keeps fv w) as (En & _).
    assert (Hkey : In (str_or (field_name w) "")
                      (map fst (write_all
                                  (bindings named FillCheck.widget_info 0
                                     (Fill.fill_document fv doc)) []))).
    { apply write_all_keys. left. rewrite <- En.
      apply (@In_bindings _ named FillCheck.widget_info
               (Fill.fill_document fv doc) 0 (Fill.fill_page fv p)).
      - rewrite fill_document_pagewise. now apply in_map.
      - simpl. now apply in_map.
      - unfold named. now rewrite En. }
    apply In_key_binding in Hkey. destruct Hkey as (i & Hi).
    assert (Hv : FillCheck.v_value i = e).
    { apply write_all_In in Hi. destruct Hi as [Hi|[]].
      exact (@filled_bindings_match fv doc _ i e Hok Hi El). }
    pose proof (@In_verdicts fv _ _ i e Hi El) as Hin.
    rewrite Hv, String.eqb_refl in Hin. exact Hin.
Qed.

Lemma X28_fill_then_verify_witness :
  FillCheck.main_report Samples2.jane_open Samples2.jane_tobytes
    Samples.good_bytes Samples2.jane_values
  = [("name"%string, true)] /\
  Forall (fun nb => snd nb = true)
         (FillCheck.main_report Samples2.jane_open Samples2.jane_tobytes
            Samples.good_bytes Samples2.jane_values).
Proof.
  split; [reflexivity|].
  refine (proj1 (@X28_fill_then_verify Samples2.jane_open
                   Samples2.jane_tobytes Samples.good_bytes
                   Samples2.jane_values Samples2.jane_doc
                   Byte.x25 [Byte.x50; Byte.x44; Byte.x46; Byte.x2b]
                   eq_refl eq_refl eq_refl _)).
  intros p w [<-|[<-|[]]]; simpl; intros Hw;
    repeat (destruct Hw as [<-|Hw]; [reflexivity|]); destruct Hw.
Defined.

(** X29.  When the document opens, [verify_filled_pdf] reports every named
    widget: no name twice, a name exactly when some widget carries it, and
    under each name the value, type and page of the last widget carrying
    it in document order. *)
Theorem X29_verification_reports_named_widgets
    (fitz_open : list Byte.byte -> Probe Document)
    (pdf_data : list Byte.byte) (doc : Document) :
  fitz_open pdf_data = Returns doc ->
  NoDup (map fst (FillCheck.verify_filled_pdf fitz_open pdf_data)) /\
  (forall k,
     In k (map fst (FillCheck.verify_filled_pdf fitz_open pdf_data)) <->
     exists p w, In p doc /\ In w (widgets p) /\ named w = true /\
                 field_name w = Some k) /\
  (forall k,
     dict_get (FillCheck.verify_filled_pdf fitz_open pdf_data) k
     = dict_get (rev (bindings named FillCheck.widget_info 0 doc)) k).
Proof.
  intros Hopen. unfold FillCheck.verify_filled_pdf. rewrite Hopen. simpl.
  rewrite fillcheck_scan_pages. split; [|split].
  - apply write_all_NoDup. constructor.
  - intros k. rewrite write_all_keys. split.
    + intros [H|[]]. apply In_key_binding in H. destruct H as (i & H).
      apply bindings_In in H.
      destruct H as (n & p & w & Hn & Hw & Hs & [= -> ->]).
      exists p, w. split; [now apply nth_error_In in Hn|].
      split; [exact Hw|]. split; [exact Hs|].
      apply (truthy_name_nonempty w Hs).
    + intros (p & w & Hp & Hw & Hs & Hk). left.
      replace k with (str_or (field_name w) "").
      * now apply (@In_bindings _ named FillCheck.widget_info doc 0 p).
      * destruct (truthy_name_nonempty w Hs) as [_ E]. congruence.
  - intros k. rewrite write_all_get.
    now destruct (dict_get (rev (bindings named FillCheck.widget_info 0 doc))
                           k).
Qed.

Lemma X29_verification_reports_named_widgets_witness :
  option_map FillCheck.v_page
    (dict_get (FillCheck.verify_filled_pdf (Samples.opens Samples2.jane_doc)
                 Samples.good_bytes) "name"%string)
  = Some 2%nat.
Proof.
  rewrite (proj2 (proj2 (@X29_verification_reports_named_widgets
                           (Samples.opens Samples2.jane_doc)
                           Samples.good_bytes Samples2.jane_doc eq_refl))).
  reflexivity.
Defined.

(** X30.  When the file opens, the verification script finds exactly the
    names of the widgets that have both a name and a value; no name twice,
    every found name and value non-empty, every page number between 1 and
    the page count. *)
Theorem X30_verify_pdf_finds_filled_fields
    (fitz_open_path : string -> Probe Document) (pdf_path : string)
    (doc : Document) :
  fitz_open_path pdf_path = Returns doc ->
  NoDup (map fst (VerifyPdf.verify_pdf_fields fitz_open_path pdf_path)) /\
  (forall k,
     In k (map fst (VerifyPdf.verify_pdf_fields fitz_open_path pdf_path)) <->
     exists p w, In p doc /\ In w (widgets p) /\ is_filled w = true /\
                 field_name w = Some k) /\
  Forall (fun kf =>
            fst kf <> ""%string /\
            VerifyPdf.r_value (snd kf) <> ""%string /\
            (1 <= VerifyPdf.r_page (snd kf) <= List.length doc)%nat)
         (VerifyPdf.verify_pdf_fields fitz_open_path pdf_path).
Proof.
  intros Hopen. unfold VerifyPdf.verify_pdf_fields. rewrite Hopen. simpl.
  rewrite verifypdf_scan_pages. split; [|split].
  - apply write_all_NoDup. constructor.
  - intros k. rewrite write_all_keys. split.
    + intros [H|[]]. apply In_key_binding in H. destruct H as (i & H).
      apply bindings_In in H.
      destruct H as (n & p & w & Hn & Hw & Hs & [= -> ->]).
      exists p, w. split; [now apply nth_error_In in Hn|].
      split; [exact Hw|]. split; [exact Hs|].
      unfold is_filled in Hs. apply andb_true_iff in Hs.
      apply (truthy_name_nonempty w (proj1 Hs)).
    + intros (p & w & Hp & Hw & Hs & Hk). left.
      replace k with (str_or (field_name w) "").
      * now apply (@In_bindings _ is_filled VerifyPdf.widget_found doc 0 p).
      * unfold is_filled in Hs. apply andb_true_iff in Hs.
        destruct (truthy_name_nonempty w (proj1 Hs)) as [_ E]. congruence.
  - apply Forall_forall. intros kf Hkf.
    apply write_all_In in Hkf. destruct Hkf as [Hkf|[]].
    apply bindings_In in Hkf.
    destruct Hkf as (n & p & w & Hn & Hw & Hs & ->). simpl.
    unfold is_filled in Hs. apply andb_true_iff in Hs.
    destruct Hs as [Hname Hvalue].
    split; [apply (truthy_name_nonempty w Hname)|]. split.
    + destruct (field_value w) as [v|]; simpl in *; [|discriminate].
      destruct (v =? "")%string eqn:E; [discriminate|].
      now apply String.eqb_neq.
    + assert (n < List.length doc)%nat; [|lia].
      apply nth_error_Some. congruence.
Qed.

Lemma X30_verify_pdf_finds_filled_fields_witness :
  map fst (VerifyPdf.verify_pdf_fields Samples2.path_open "form.pdf")
  = ["agree"%string] /\
  NoDup (map fst (VerifyPdf.verify_pdf_fields Samples2.path_open "form.pdf")).
Proof.
  split; [reflexivity|].
  exact (proj1 (@X30_verify_pdf_finds_filled_fields Samples2.path_open
                  "form.pdf"%string Samples.form_doc eq_refl)).
Defined.
